(** * LibraryAutoReserveSignForGZHU: the sign-in script, embedded and verified

    A shallow embedding of [libs/source.py] and [sign.py].

    - Python [str] values are sequences of Unicode code points ([list N]).
    - Python [int] values are unbounded, hence [Z]; [&] is [Z.land].
    - A call that may raise returns a [result]; code that mutates the
      [ZWYT] object, talks to the portal or writes the log runs in the
      state-and-exception monad [M].
    - The portal is a script of replies: every HTTP call consumes the next
      reply and is recorded in the list of requests sent.
    - A [dict] keyed by strings whose order is not observed is a [gmap].

    Left out: the UTF-8 encoding of the cache file (its content is the
    decoded text), the clock (the reservation query leaves its date out,
    [get_reserve_date] is given the two days), the timeouts, the parsing
    of the command line by [argparse], and the methods that are stubs
    ([get_response], [get_roomId], [get_devId]). The files are a store
    keyed by the path names as they are given: permissions, links and the
    names that [pathlib] rewrites (a trailing slash, a [.] component) are
    left out; the empty path and the names that are too long are not. *)

From Stdlib Require Import ZArith NArith Lia String Ascii.
From stdpp Require Import base option list gmap pretty.

Set Default Proof Using "Type".
Set Warnings "-register-all".
Open Scope N_scope.

(** ** Python strings *)

Abbreviation str := (list N).

(** Decoding of the UTF-8 bytes of a Rocq string literal, so that the
    literals of the source can be written as they are. *)
Fixpoint utf8_decode (bs : list N) : str :=
  match bs with
  | [] => []
  | b :: t =>
    if b <? 128 then b :: utf8_decode t
    else if b <? 224 then
      match t with
      | b1 :: t' => ((b - 192) * 64 + (b1 - 128)) :: utf8_decode t'
      | _ => []
      end
    else if b <? 240 then
      match t with
      | b1 :: b2 :: t' =>
        ((b - 224) * 4096 + (b1 - 128) * 64 + (b2 - 128)) :: utf8_decode t'
      | _ => []
      end
    else
      match t with
      | b1 :: b2 :: b3 :: t' =>
        ((b - 240) * 262144 + (b1 - 128) * 4096 + (b2 - 128) * 64 + (b3 - 128))
          :: utf8_decode t'
      | _ => []
      end
  end.

Definition py (s : string) : str :=
  utf8_decode (map N_of_ascii (list_ascii_of_string s)).

Definition str_eqb (a b : str) : bool := bool_decide (a = b).

(** [str.isspace] for one character: the code points CPython treats as
    whitespace, which is what [str.strip()] and [str.split(None)] use. *)
Definition isspace (c : N) : bool :=
  ((9 <=? c) && (c <=? 13)) || ((28 <=? c) && (c <=? 32))
  || (c =? 133) || (c =? 160) || (c =? 5760)
  || ((8192 <=? c) && (c <=? 8202))
  || (c =? 8232) || (c =? 8233) || (c =? 8239) || (c =? 8287) || (c =? 12288).

Fixpoint dropwhile (p : N → bool) (s : str) : str :=
  match s with
  | [] => []
  | c :: t => if p c then dropwhile p t else s
  end.

Fixpoint takewhile (p : N → bool) (s : str) : str :=
  match s with
  | [] => []
  | c :: t => if p c then c :: takewhile p t else []
  end.

Definition lstrip (s : str) : str := dropwhile isspace s.
Definition rstrip (s : str) : str := rev (dropwhile isspace (rev s)).

(** [s.strip()] *)
Definition strip (s : str) : str := rstrip (lstrip s).

(** [s.split(None, 1)]: runs of whitespace separate the fields, at most one
    split is made, and the remainder (leading whitespace skipped) is the
    second field as it stands. *)
Definition split_None_1 (s : str) : list str :=
  match dropwhile isspace s with
  | [] => []
  | s1 =>
    let w := takewhile (λ c, negb (isspace c)) s1 in
    match dropwhile isspace (dropwhile (λ c, negb (isspace c)) s1) with
    | [] => [w]
    | r => [w; r]
    end
  end.

(** [s.split(sep)[0]] for a one-character separator. *)
Definition split_first (sep : N) (s : str) : str :=
  takewhile (λ c, negb (c =? sep)) s.

(** ** Exceptions and results *)

Inductive exn :=
| IndexError | TypeError | AttributeError | KeyError
| FileNotFoundError | IsADirectoryError | OSError
| JSONDecodeError | RecursionError
| HTTPError.

Inductive result (A : Type) :=
| Ok (a : A)
| Raise (e : exn).
Arguments Ok {A} a.
Arguments Raise {A} e.

Definition rbind {A B} (r : result A) (k : A → result B) : result B :=
  match r with
  | Ok a => k a
  | Raise e => Raise e
  end.

Notation "'let*' x := r 'in' k" := (rbind r (λ x, k))
  (at level 10, x name, r at level 100, k at level 200).

(** [l[0]] *)
Definition index0 {A} (l : list A) : result A :=
  match l with
  | [] => Raise IndexError
  | x :: _ => Ok x
  end.

(** ** ReturnCode *)

Inductive ReturnCode :=
| SUCCESS
| ALREADY_SIGNED
| NO_RESERVATION
| GET_LOGIN_URL_FAILED
| LOGIN_SKIPED
| COOKIE_EXPIRED
| FAILED.

#[global] Instance ReturnCode_eq_dec : EqDecision ReturnCode.
Proof. solve_decision. Defined.

#[global] Instance exn_eq_dec : EqDecision exn.
Proof. solve_decision. Defined.

(** ** The reservation status bitmask *)

(** The test of [get_ahead_reservation] on [resvStatus]:
    [(resvStatus & 64 == 0) or (resvStatus & 2048 != 0)]. *)
Definition needs_sign_in (resvStatus : Z) : bool :=
  (Z.land resvStatus 64 =? 0)%Z || negb (Z.land resvStatus 2048 =? 0)%Z.

(** ** What the interpreter and the external modules provide

    [re_digit] is the class [\d] of [re] on [str] patterns (the Unicode
    decimal digits of the running interpreter; none of them is whitespace);
    [unquote] is [urllib.parse.unquote]; [RSA_strEnc] is [RSA().strEnc] of
    the external module [libs/rsa.py]; [lower] and [upper] are [str.lower]
    and [str.upper]; [recursion_limit] is the number of nested calls the
    interpreter still allows; [name_too_long] tells the path names that
    the platform refuses for their length. *)
Class Runtime := {
  re_digit : N → bool;
  re_digit_not_space : ∀ c, re_digit c = true → isspace c = false;
  unquote : str → str;
  RSA_strEnc : str → result str;
  lower : str → str;
  upper : str → str;
  recursion_limit : nat;
  name_too_long : str → bool
}.

(** ** JSON values as Python sees them

    [JNull] is [None]. A dict is the list of its items; [get] takes the
    first item with the key. Floats do not occur in the portal's replies
    and are left out. *)
Inductive json :=
| JNull
| JBool (b : bool)
| JInt (z : Z)
| JStr (s : str)
| JList (l : list json)
| JDict (d : list (str * json)).

Fixpoint assoc {A} (key : str) (d : list (str * A)) : option A :=
  match d with
  | [] => None
  | (k, v) :: rest => if str_eqb k key then Some v else assoc key rest
  end.

(** [v.get(key)] *)
Definition py_get (v : json) (key : str) : result json :=
  match v with
  | JDict d => Ok (default JNull (assoc key d))
  | _ => Raise AttributeError
  end.

(** The integer an operand of [&] or [-] stands for; [bool] is a subclass
    of [int]. *)
Definition py_int (v : json) : result Z :=
  match v with
  | JInt z => Ok z
  | JBool b => Ok (Z.b2z b)
  | _ => Raise TypeError
  end.

(** [for item in v] *)
Definition py_iter (v : json) : result (list json) :=
  match v with
  | JList l => Ok l
  | JDict d => Ok (map (λ kv, JStr kv.1) d)
  | JStr s => Ok (map (λ c, JStr [c]) s)
  | _ => Raise TypeError
  end.

(** [v[0]] *)
Definition py_index0 (v : json) : result json :=
  match v with
  | JList l => index0 l
  | JStr s => match s with [] => Raise IndexError | c :: _ => Ok (JStr [c]) end
  | JDict _ => Raise KeyError
  | _ => Raise TypeError
  end.

(** [v is None] *)
Definition is_None (v : json) : bool :=
  match v with JNull => true | _ => false end.

(** [v == s] for a string literal [s] *)
Definition json_eq_str (v : json) (s : str) : bool :=
  match v with JStr t => str_eqb t s | _ => false end.

(** The subject of a [match] with integer literal patterns: [case 0]
    matches what compares equal to [0]. *)
Definition py_num (v : json) : option Z :=
  match v with
  | JInt z => Some z
  | JBool b => Some (Z.b2z b)
  | _ => None
  end.

(** A value on which a [str] method is called. *)
Definition as_str (v : json) : result str :=
  match v with JStr s => Ok s | _ => Raise AttributeError end.

(** A value handed to [re.findall] as the text. *)
Definition as_text (v : json) : result str :=
  match v with JStr s => Ok s | _ => Raise TypeError end.

(** ** Log records

    One constructor per [logger] call of the source, with the values its
    message interpolates. *)
Inductive log_record :=
| Warn_cookie_empty (name : str)
| Warn_cookie_illegal (name value : str)
| Warn_cache_missing (path : str)
| Info_cache_saved (path : str)
| Info_login_skipped (name : str)
| Error_login_url (name : str) (e : exn)
| Info_query (name : str)
| Warn_cookie_expired (name : str)
| Error_query (name : str) (message code : json)
| Info_found (name : str) (reserved total : Z)
| Info_nothing_to_sign (name : str)
| Warn_several (name : str) (resv : list json)
| Warn_message (name : str) (message : json)
| Success_signed (name : str) (message : json)
| Warn_already_signed (name : str) (message : json)
| Error_sign (name : str) (message : json).

(** ** The cookie cache file *)

(** What a path names. *)
Inductive node :=
| File (content : str)
| Directory.

(** Text-mode reading translates [\r\n] and [\r] to [\n]. *)
Fixpoint universal_newlines (s : str) : str :=
  match s with
  | [] => []
  | c :: t =>
    if c =? 13 then
      match t with
      | d :: t' => if d =? 10 then 10 :: universal_newlines t'
                   else 10 :: universal_newlines t
      | [] => [10]
      end
    else c :: universal_newlines t
  end.

(** [f.readlines()] on translated text: every line keeps its [\n]; a last
    line without one is a line too. *)
Fixpoint readlines (s : str) : list str :=
  match s with
  | [] => []
  | c :: t =>
    if c =? 10 then [c] :: readlines t
    else match readlines t with
         | [] => [[c]]
         | l :: ls => (c :: l) :: ls
         end
  end.

(** The character classes of
    [[a-f\d]{8}-(?:[a-f\d]{4}-){3}[a-f\d]{12}]. *)
Inductive cclass := Hex | Hyphen.

Definition uuid_pattern : list cclass :=
  replicate 8 Hex ++ [Hyphen]
  ++ concat (replicate 3 (replicate 4 Hex ++ [Hyphen]))
  ++ replicate 12 Hex.

Section CookieCache.
Context `{Runtime}.

Definition in_class (c : N) (cl : cclass) : bool :=
  match cl with
  | Hex => ((97 <=? c) && (c <=? 102)) || re_digit c
  | Hyphen => c =? 45
  end.

(** [re.fullmatch] for a pattern that is a sequence of one-character
    classes. *)
Fixpoint fullmatch (p : list cclass) (s : str) : bool :=
  match p, s with
  | [], [] => true
  | cl :: p', c :: s' => in_class c cl && fullmatch p' s'
  | _, _ => false
  end.

(** The loop of [load_cookie_cache] over the lines read. With
    [line = line.strip().split(None, 1)]: a list of length other than 2
    is reported through [line[0]], which raises on the empty list; a
    second field that is not a UUID is reported; otherwise the pair is
    stored. *)
Fixpoint load_lines (cookies : list str) (cookie_dict : gmap str str)
  : list log_record * result (gmap str str) :=
  match cookies with
  | [] => ([], Ok cookie_dict)
  | line :: rest =>
    match split_None_1 (strip line) with
    | [name; value] =>
      if negb (fullmatch uuid_pattern value) then
        let r := load_lines rest cookie_dict in
        (Warn_cookie_illegal name value :: r.1, r.2)
      else load_lines rest (<[name := value]> cookie_dict)
    | [] => ([], Raise IndexError)
    | name :: _ =>
      let r := load_lines rest cookie_dict in
      (Warn_cookie_empty name :: r.1, r.2)
    end
  end.

(** [Path(path).exists()]. A path with an entry in the store exists.
    Without one: [Path('')] is [Path('.')], the current directory, which
    exists; on a name longer than the platform allows, [os.stat] fails
    with an [OSError] that [exists] does not swallow; any other path
    names nothing. *)
Definition Path_exists (fs : gmap str node) (path : str) : result bool :=
  match fs !! path with
  | Some _ => Ok true
  | None =>
    if bool_decide (path = []) then Ok true
    else if name_too_long path then Raise OSError
    else Ok false
  end.

(** [open(path, 'r')] and the text read from the file. *)
Definition open_read (fs : gmap str node) (path : str) : result str :=
  match fs !! path with
  | Some (File content) => Ok content
  | Some Directory => Raise IsADirectoryError
  | None => Raise FileNotFoundError
  end.

Definition load_cookie_cache (fs : gmap str node) (path : str)
  : list log_record * result (gmap str str) :=
  match Path_exists fs path with
  | Ok true =>
    match open_read fs path with
    | Ok content => load_lines (readlines (universal_newlines content)) ∅
    | Raise e => ([], Raise e)
    end
  | Ok false => ([Warn_cache_missing path], Ok ∅)
  | Raise e => ([], Raise e)
  end.
End CookieCache.

(** The line [f'{name} {cookie}\n']. *)
Definition cache_line (entry : str * str) : str :=
  entry.1 ++ [32] ++ entry.2 ++ [10].

(** The text [save_cookie_cache] writes: one line per item of the dict. *)
Definition cache_text (cookies : gmap str str) : str :=
  concat (map cache_line (map_to_list cookies)).

Definition save_cookie_cache (fs : gmap str node) (path : str)
    (cookies : gmap str str) : list log_record * result (gmap str node) :=
  match fs !! path with
  | Some Directory => ([], Raise IsADirectoryError)
  | _ =>
    ([Info_cache_saved path],
     Ok (<[path := File (cache_text cookies)]> fs))
  end.

(** *** Vocabulary of the statements about the cache *)

(** A name that survives the file format: not empty, no whitespace. *)
Definition name_ok (name : str) : bool :=
  negb (bool_decide (name = [])) && forallb (λ c, negb (isspace c)) name.

(** A text without line break characters. *)
Definition one_line (s : str) : bool :=
  forallb (λ c, negb (c =? 10) && negb (c =? 13)) s.

(** What reading makes of a cookie that was written: the cookie without
    its surrounding whitespace when that is a UUID, nothing otherwise. *)
Definition kept `{Runtime} (cookie : str) : option str :=
  if fullmatch uuid_pattern (strip cookie) then Some (strip cookie) else None.

Definition store `{Runtime} (m : gmap str str) (entry : str * str)
  : gmap str str :=
  match kept entry.2 with
  | Some v => <[entry.1 := v]> m
  | None => m
  end.

(** ** Regular expressions of the source

    The source takes element [0] of [re.findall] for patterns made of a
    literal, one group of any characters (greedy, or lazy when written with
    a question mark), and at most one closing character. The dot matches
    every character but [\n]. [search] tries the positions from
    the left, as the regex engine does, and gives the group of the first
    match. *)

Fixpoint strip_prefix (lit s : str) : option str :=
  match lit, s with
  | [], _ => Some s
  | a :: lit', b :: s' => if a =? b then strip_prefix lit' s' else None
  | _ :: _, [] => None
  end.

(** The longest text a starred dot can take at the head of [s]. *)
Definition dot_run (s : str) : str := takewhile (λ c, negb (c =? 10)) s.

Fixpoint search (m : str → option str) (s : str) : option str :=
  match m s with
  | Some g => Some g
  | None => match s with
            | [] => None
            | _ :: t => search m t
            end
  end.

(** [lit] and a greedy group, matched at the head of [s]. *)
Definition match_tail (lit s : str) : option str :=
  match strip_prefix lit s with
  | Some r => Some (dot_run r)
  | None => None
  end.

(** [lit], a lazy group and [d], matched at the head of [s]: the group
    ends at the first [d]. *)
Definition match_lazy (lit : str) (d : N) (s : str) : option str :=
  match strip_prefix lit s with
  | Some r =>
    let run := dot_run r in
    if existsb (N.eqb d) run then Some (takewhile (λ c, negb (c =? d)) run)
    else None
  | None => None
  end.

(** [lit], a greedy group and [d], matched at the head of [s]: the group
    ends at the last [d]. *)
Definition match_greedy (lit : str) (d : N) (s : str) : option str :=
  match strip_prefix lit s with
  | Some r =>
    let run := dot_run r in
    if existsb (N.eqb d) run
    then Some (rev (tail (dropwhile (λ c, negb (c =? d)) (rev run))))
    else None
  | None => None
  end.

(** [re.findall(pattern, s)[0]] *)
Definition findall_0 (m : str → option str) (s : str) : result str :=
  match search m s with
  | Some g => Ok g
  | None => Raise IndexError
  end.

(** ** HTTP

    A response as the source reads it: [text], [headers], the result of
    [.json()] ([None] when the body is not JSON) and the [input] elements
    of the document [etree.HTML] builds ([None] when it builds none). *)
Record input_element := {
  attr_id : option str;
  attr_name : option str;
  attr_value : option str
}.

Record response := {
  text : str;
  headers : list (str * str);
  json_body : option json;
  html_inputs : option (list input_element)
}.

(** [res.json()] *)
Definition res_json (res : response) : result json :=
  match json_body res with
  | Some j => Ok j
  | None => Raise JSONDecodeError
  end.

(** [etree.HTML(res.text)] followed by [.xpath]: [None] has no [xpath]. *)
Definition etree_HTML (res : response) : result (list input_element) :=
  match html_inputs res with
  | Some doc => Ok doc
  | None => Raise AttributeError
  end.

(** [//input[@id="lt"]/@value] and [//input[@name="execution"]/@value]. *)
Definition xpath_value (attr : input_element → option str) (key : str)
    (doc : list input_element) : list str :=
  omap (λ e, if bool_decide (attr e = Some key) then attr_value e else None)
    doc.

(** The requests of the source, with the values each one carries. The
    date in the reservation query comes from the clock and is left out. *)
Inductive request :=
| Get_findaddress
| Get_location (address : json)
| Get_login_url (url : str)
| Post_login_url (url rsa : str) (ul pl : nat) (lt execution : str)
| Get_service (url : str)
| Get_auth_token (uuid uniToken : str)
| Get_resvinfo (ic_cookie : str)
| Post_seat_login (devSn : json) (ic_cookie : str)
| Post_seat_sign (resvId : json) (ic_cookie : str)
| Get_pushplus (token title : str) (content : str + exn).

(** ** The object, its surroundings, and the monad of the methods

    The fields of a [ZWYT] object that the methods read or write
    ([cookies] is [self.cookies['ic-cookie']], [login_url] is
    [self.urls['login_url']], where [None] is Python's [None]), together
    with what surrounds it: the seat tables under [json/] by path, the
    replies the portal will give to the next requests, the requests sent
    and the records logged so far. *)
Record state := {
  name : str;
  username : str;
  password : str;
  pushplus_token : str;
  cookies : str;
  login_url : option str;
  json_dir : gmap str json;
  portal : list (result response);
  sent : list request;
  logged : list log_record
}.

Definition set_cookies (c : str) (s : state) : state :=
  {| name := name s; username := username s; password := password s;
     pushplus_token := pushplus_token s; cookies := c;
     login_url := login_url s; json_dir := json_dir s;
     portal := portal s; sent := sent s; logged := logged s |}.

Definition set_login_url (u : option str) (s : state) : state :=
  {| name := name s; username := username s; password := password s;
     pushplus_token := pushplus_token s; cookies := cookies s;
     login_url := u; json_dir := json_dir s;
     portal := portal s; sent := sent s; logged := logged s |}.

Definition set_portal (rs : list (result response)) (rq : request)
    (s : state) : state :=
  {| name := name s; username := username s; password := password s;
     pushplus_token := pushplus_token s; cookies := cookies s;
     login_url := login_url s; json_dir := json_dir s;
     portal := rs; sent := sent s ++ [rq]; logged := logged s |}.

Definition add_log (r : log_record) (s : state) : state :=
  {| name := name s; username := username s; password := password s;
     pushplus_token := pushplus_token s; cookies := cookies s;
     login_url := login_url s; json_dir := json_dir s;
     portal := portal s; sent := sent s; logged := logged s ++ [r] |}.

(** A method either returns or raises, and leaves a state behind in both
    cases. *)
Definition M (A : Type) : Type := state → result A * state.

Definition ret {A} (a : A) : M A := λ s, (Ok a, s).

Definition bind {A B} (m : M A) (k : A → M B) : M B :=
  λ s, match m s with
       | (Ok a, s') => k a s'
       | (Raise e, s') => (Raise e, s')
       end.

Notation "x <- c1 ;; c2" := (bind c1 (λ x, c2))
  (at level 20, c1 at level 99, c2 at level 200, only parsing).
Notation "' pat <- c1 ;; c2" := (bind c1 (λ x, match x with pat => c2 end))
  (at level 20, pat pattern, c1 at level 99, c2 at level 200, only parsing).
Notation "c1 ;; c2" := (bind c1 (λ _, c2))
  (at level 100, c2 at level 200, only parsing, right associativity).

(** A pure step that may raise. *)
Definition lift {A} (r : result A) : M A := λ s, (r, s).

(** [try: m except Exception as e: ...]: the outcome of [m] as a value. *)
Definition try_ {A} (m : M A) : M (result A) :=
  λ s, let (r, s') := m s in (Ok r, s').

Definition get : M state := λ s, (Ok s, s).
Definition modify (f : state → state) : M unit := λ s, (Ok tt, f s).
Definition log (r : log_record) : M unit := modify (add_log r).

(** One call of [self.rr.get] or [self.rr.post]: the request goes out and
    the next reply of the portal comes back; a reply may be a raised
    transport fault, and a portal with nothing left to say is one. *)
Definition http (rq : request) : M response :=
  λ s, match portal s with
       | [] => (Raise HTTPError, set_portal [] rq s)
       | r :: rest => (r, set_portal rest rq s)
       end.

(** A url handed to [self.rr.get]: [None] is refused before anything is
    sent. *)
Definition url_arg (u : option str) : result str :=
  match u with
  | Some u => Ok u
  | None => Raise TypeError
  end.

(** [str(v)] of a header value that may be [None]. *)
Definition py_str (v : option str) : str := default (py "None") v.

(** A header value handed to [unquote] or to [re.findall]. *)
Definition text_arg (v : option str) : result str :=
  match v with
  | Some t => Ok t
  | None => Raise TypeError
  end.

(** ** The methods of [ZWYT] *)

(** [re.findall(lit, s)] is not empty. *)
Definition occurs (lit s : str) : bool :=
  bool_decide (is_Some (search (λ t, strip_prefix lit t) s)).

(** [pushplus(title, content)]; the content is a text or an exception. *)
Definition pushplus (title : str) (content : str + exn) : M unit :=
  s <- get ;;
  http (Get_pushplus (pushplus_token s) title content) ;;
  ret tt.

(** The body of [passwordReset] is empty. *)
Definition passwordReset : M unit := ret tt.

Definition get_login_url : M unit :=
  res <- http Get_findaddress ;;
  body <- lift (res_json res) ;;
  address <- lift (py_get body (py "data")) ;;
  res <- http (Get_location address) ;;
  modify (set_login_url (assoc (py "Location") (headers res))).

(** The loop of [get_ahead_reservation] over [res.get('data')]. *)
Fixpoint select_resv (items : list json) : result (list json) :=
  match items with
  | [] => Ok []
  | item :: rest =>
    let* resvStatus := py_get item (py "resvStatus") in
    let* m := py_int resvStatus in
    let* resv := select_resv rest in
    Ok (if needs_sign_in m then item :: resv else resv)
  end.

(** The pair returned is [(record or None, ReturnCode)]. *)
Definition get_ahead_reservation : M (option json * ReturnCode) :=
  s <- get ;;
  log (Info_query (name s)) ;;
  res <- http (Get_resvinfo (cookies s)) ;;
  res <- lift (res_json res) ;;
  code <- lift (py_get res (py "code")) ;;
  match py_num code with
  | Some 0%Z =>
    data <- lift (py_get res (py "data")) ;;
    items <- lift (py_iter data) ;;
    resv <- lift (select_resv items) ;;
    total_resv <- lift (py_get res (py "count")) ;;
    total <- lift (py_int total_resv) ;;
    log (Info_found (name s) (total - Z.of_nat (length resv)) total) ;;
    match resv with
    | [] =>
      log (Info_nothing_to_sign (name s)) ;;
      ret (None, NO_RESERVATION)
    | first :: others =>
      (if bool_decide (others = []) then ret tt
       else log (Warn_several (name s) resv)) ;;
      ret (Some first, SUCCESS)
    end
  | Some 300%Z =>
    log (Warn_cookie_expired (name s)) ;;
    ret (None, COOKIE_EXPIRED)
  | _ =>
    message <- lift (py_get res (py "message")) ;;
    log (Error_query (name s) message code) ;;
    ret (None, FAILED)
  end.

Section Portal.
Context `{Runtime}.

(** The body of [login] after the [try] block: the login form, the
    credentials, the ticket, the session parameters and the cookie. *)
Definition login_exchange : M ReturnCode :=
  s <- get ;;
  url <- lift (url_arg (login_url s)) ;;
  res <- http (Get_login_url url) ;;
  html <- lift (etree_HTML res) ;;
  lt <- lift (index0 (xpath_value attr_id (py "lt") html)) ;;
  execution <-
    lift (index0 (xpath_value attr_name (py "execution") html)) ;;
  rsa <- lift (RSA_strEnc (username s ++ password s ++ lt)) ;;
  res <- http (Post_login_url url rsa (length (username s))
                 (length (password s)) lt execution) ;;
  (if occurs (py "密码重置") (text res) then passwordReset else ret tt) ;;
  let location := py_str (assoc (py "Location") (headers res)) in
  ticket <- lift (findall_0 (match_tail (py "ticket=")) location) ;;
  service <- lift (findall_0 (match_tail (py "service=")) url) ;;
  let url := unquote (service ++ py "?ticket=" ++ ticket) in
  res <- http (Get_service url) ;;
  location <- lift (text_arg (assoc (py "Location") (headers res))) ;;
  let location := unquote location in
  unitoken <- lift (findall_0 (match_tail (py "uniToken=")) location) ;;
  uuid <- lift (findall_0 (match_lazy (py "uuid=") 38) location) ;;
  get_cookie_res <- http (Get_auth_token uuid unitoken) ;;
  icc <-
    lift (text_arg (assoc (py "Set-Cookie") (headers get_cookie_res))) ;;
  ic <- lift (findall_0 (match_lazy (py "ic-cookie=") 59) icc) ;;
  modify (set_cookies ic) ;;
  ret SUCCESS.

Definition login (force_login : bool) : M ReturnCode :=
  s <- get ;;
  if negb force_login && negb (bool_decide (cookies s = [])) then
    log (Info_login_skipped (name s)) ;;
    ret LOGIN_SKIPED
  else
    r <- try_ get_login_url ;;
    match r with
    | Raise e =>
      log (Error_login_url (name s) e) ;;
      ret GET_LOGIN_URL_FAILED
    | Ok _ => login_exchange
    end.

(** The loop of [get_seat_resvDev_devSn] over the seats of a table: the
    last seat with the name gives the result. *)
Fixpoint scan_seats (items : list json) (devName tag : str) (resvDev : json)
  : result json :=
  match items with
  | [] => Ok resvDev
  | i :: rest =>
    let* n := py_get i (py "devName") in
    if json_eq_str n (upper devName) || json_eq_str n (lower devName) then
      if str_eqb tag (py "reserve") then
        let* v := py_get i (py "devId") in scan_seats rest devName tag v
      else if str_eqb tag (py "sign") then
        let* v := py_get i (py "devSn") in scan_seats rest devName tag v
      else scan_seats rest devName tag resvDev
    else scan_seats rest devName tag resvDev
  end.

(** What [get_seat_resvDev_devSn] finds in the seat tables [dir]. *)
Definition seat_lookup (dir : gmap str json) (devName tag : str)
  : result json :=
  let filename := split_first 45 (strip devName) in
  let* c := index0 filename in
  let json_path :=
    if c =? 77 then py "json/琴房.json"
    else
      let lower_path := py "json/" ++ lower filename ++ py ".json" in
      if bool_decide (is_Some (dir !! lower_path)) then lower_path
      else py "json/" ++ upper filename ++ py ".json" in
  let* json_data := match dir !! json_path with
                    | Some j => Ok j
                    | None => Raise FileNotFoundError
                    end in
  let* data := py_get json_data (py "data") in
  let* items := py_iter data in
  scan_seats items devName tag JNull.

Definition get_seat_resvDev_devSn (devName tag : str) : M json :=
  s <- get ;;
  lift (seat_lookup (json_dir s) devName tag).

(** [sign], with the number of nested calls the interpreter still
    allows; one more call than that raises [RecursionError]. *)
Fixpoint sign_within (depth : nat) (devName : str) : M ReturnCode :=
  match depth with
  | O => lift (Raise RecursionError)
  | S depth' =>
    devSn <- get_seat_resvDev_devSn devName (py "sign") ;;
    s <- get ;;
    res1 <- http (Post_seat_login devSn (cookies s)) ;;
    res1_data <- lift (res_json res1) ;;
    data <- lift (py_get res1_data (py "data")) ;;
    if is_None data then
      message <- lift (py_get res1_data (py "message")) ;;
      log (Warn_message (name s) message) ;;
      message <- lift (as_text message) ;;
      devName <- lift (findall_0 (match_greedy (py "-") 22788) message) ;;
      sign_within depth' devName
    else
      reserveInfo <- lift (py_get data (py "reserveInfo")) ;;
      if is_None reserveInfo then ret NO_RESERVATION
      else
        resvId <- lift (py_get reserveInfo (py "resvId")) ;;
        res2 <- http (Post_seat_sign resvId (cookies s)) ;;
        body <- lift (res_json res2) ;;
        message <- lift (py_get body (py "message")) ;;
        if json_eq_str message (py "操作成功") then
          log (Success_signed (name s) message) ;;
          ret SUCCESS
        else if json_eq_str message (py "用户已签到，请勿重复签到") then
          log (Warn_already_signed (name s) message) ;;
          ret ALREADY_SIGNED
        else
          log (Error_sign (name s) message) ;;
          ret FAILED
  end.

Definition sign (devName : str) : M ReturnCode :=
  sign_within recursion_limit devName.

Definition sign_for_ahead_reservation : M ReturnCode :=
  ' (resv, errc) <- get_ahead_reservation ;;
  if bool_decide (errc ≠ SUCCESS) then ret errc
  else
    infos <- lift (py_get (default JNull resv) (py "resvDevInfoList")) ;;
    info <- lift (py_index0 infos) ;;
    devName <- lift (py_get info (py "devName")) ;;
    devName <- lift (as_str devName) ;;
    sign devName.
End Portal.

(** ** The loop of [main] over one entry of [infos] *)

(** The fields of an entry that the loop reads; [stu_cookie] is [None]
    when the entry has no key [cookie]. *)
Record student := {
  stu_name : str;
  stu_sno : str;
  stu_pwd : str;
  stu_pushplus : str;
  stu_devName : str;
  stu_cookie : option str
}.

(** [ZWYT(name, sno, pwd, periods, pushplus, cookie = cookie)], placed in
    the surroundings [w]. *)
Definition ZWYT_new (stu : student) (cookie : str) (w : state) : state :=
  {| name := stu_name stu; username := stu_sno stu; password := stu_pwd stu;
     pushplus_token := stu_pushplus stu; cookies := cookie;
     login_url := Some []; json_dir := json_dir w;
     portal := portal w; sent := sent w; logged := logged w |}.

(** A call the loop makes on [yy], with what came back. *)
Inductive call :=
| Call_login (force_login : bool) (r : result ReturnCode)
| Call_sign (r : result ReturnCode).

(** What a run of the loop leaves: [retc] or the exception that ended it,
    [external_cookies], [cookie_dirty], the calls made in order, and the
    state. *)
Record run := {
  run_retc : result ReturnCode;
  run_cookies : gmap str str;
  run_dirty : bool;
  run_calls : list call;
  run_state : state
}.

Definition after_call (c : call) (r : run) : run :=
  {| run_retc := run_retc r; run_cookies := run_cookies r;
     run_dirty := run_dirty r; run_calls := c :: run_calls r;
     run_state := run_state r |}.

Section Workflow.
(** The loop is stated for any behaviour of the three methods it calls. *)
Variable yy_login : bool → M ReturnCode.
Variable yy_sign_for_ahead_reservation : M ReturnCode.
Variable yy_pushplus : str → str + exn → M unit.

Definition leave (retc : result ReturnCode) (external_cookies : gmap str str)
    (cookie_dirty : bool) (s : state) : run :=
  {| run_retc := retc; run_cookies := external_cookies;
     run_dirty := cookie_dirty; run_calls := []; run_state := s |}.

(** The second half of the body: the sign-in call and the test that
    leaves the loop; [again] is the rest of the loop. *)
Definition sign_step
    (again : ReturnCode → gmap str str → bool → state → run)
    (external_cookies : gmap str str) (cookie_dirty : bool) (s : state)
  : run :=
  match yy_sign_for_ahead_reservation s with
  | (Raise e, s) =>
    after_call (Call_sign (Raise e))
      (leave (Raise e) external_cookies cookie_dirty s)
  | (Ok retc, s) =>
    after_call (Call_sign (Ok retc))
      (if bool_decide (retc = SUCCESS) || bool_decide (retc = ALREADY_SIGNED)
          || bool_decide (retc = NO_RESERVATION)
       then leave (Ok retc) external_cookies cookie_dirty s
       else again retc external_cookies cookie_dirty s)
  end.

(** [for _ in range(n)] with the body of the source. *)
Fixpoint attempts (n : nat) (stu : student) (retc : ReturnCode)
    (external_cookies : gmap str str) (cookie_dirty : bool) (s : state)
  : run :=
  match n with
  | O => leave (Ok retc) external_cookies cookie_dirty s
  | S n' =>
    let force_login := bool_decide (retc = COOKIE_EXPIRED) in
    match yy_login force_login s with
    | (Raise e, s) =>
      after_call (Call_login force_login (Raise e))
        (leave (Raise e) external_cookies cookie_dirty s)
    | (Ok retc, s) =>
      after_call (Call_login force_login (Ok retc))
        (if bool_decide (retc = SUCCESS) then
           sign_step (attempts n' stu)
             (<[stu_name stu := cookies s]> external_cookies) true s
         else if bool_decide (retc = GET_LOGIN_URL_FAILED) then
           if bool_decide (stu_pushplus stu = []) then
             leave (Ok retc) external_cookies cookie_dirty s
           else
             match yy_pushplus
                     (stu_name stu ++ py " " ++ stu_devName stu
                      ++ py " 登录失败")
                     (inl (py "获取登录链接失败")) s with
             | (Raise e, s) =>
               leave (Raise e) external_cookies cookie_dirty s
             | (Ok _, s) => leave (Ok retc) external_cookies cookie_dirty s
             end
         else sign_step (attempts n' stu) external_cookies cookie_dirty s)
    end
  end.

(** The body of the loop over [target_infos] for one entry: the cookie
    comes from the entry or from the cache, the object is built, the two
    attempts are made, and an exception is reported and swallowed (an
    exception of the report itself is not). *)
Definition sign_student (stu : student) (external_cookies : gmap str str)
    (cookie_dirty : bool) (w : state) : run :=
  let cookie :=
    match stu_cookie stu with
    | Some c => c
    | None => default [] (external_cookies !! stu_name stu)
    end in
  let yy := ZWYT_new stu cookie w in
  let r := attempts 2 stu SUCCESS external_cookies cookie_dirty yy in
  match run_retc r with
  | Raise e =>
    if bool_decide (stu_pushplus stu = []) then r
    else
      match yy_pushplus
              (stu_name stu ++ py " " ++ stu_devName stu ++ py " 签到失败")
              (inr e) (run_state r) with
      | (Raise e', s) =>
        {| run_retc := Raise e'; run_cookies := run_cookies r;
           run_dirty := run_dirty r; run_calls := run_calls r;
           run_state := s |}
      | (Ok _, s) =>
        {| run_retc := Raise e; run_cookies := run_cookies r;
           run_dirty := run_dirty r; run_calls := run_calls r;
           run_state := s |}
      end
  | Ok _ => r
  end.
End Workflow.

(** ** Vocabulary of the statements about the portal *)

(** The status of a reservation record as the selection reads it. *)
Definition status_of (item : json) : result Z :=
  let* resvStatus := py_get item (py "resvStatus") in py_int resvStatus.

Definition record_needs_sign_in (item : json) : bool :=
  match status_of item with
  | Ok m => needs_sign_in m
  | Raise _ => false
  end.

(** The number of device-login requests among the requests sent. *)
Definition is_seat_login (rq : request) : bool :=
  match rq with Post_seat_login _ _ => true | _ => false end.

Definition seat_logins (rqs : list request) : nat :=
  length (List.filter is_seat_login rqs).

(** A device-login reply without [data] whose message names [label]. *)
Definition redirects_to (res : response) (label : str) : Prop :=
  ∃ body m,
    json_body res = Some body
    ∧ py_get body (py "data") = Ok JNull
    ∧ py_get body (py "message") = Ok (JStr m)
    ∧ findall_0 (match_greedy (py "-") 22788) m = Ok label.

(** A device-login reply that carries [data]. *)
Definition carries_data (res : response) : Prop :=
  ∃ body data,
    json_body res = Some body
    ∧ py_get body (py "data") = Ok data
    ∧ is_None data = false.

(** The calls after which the loop of [main] is left. *)
Definition stops (c : call) : bool :=
  match c with
  | Call_login _ (Ok GET_LOGIN_URL_FAILED) => true
  | Call_sign (Ok SUCCESS) | Call_sign (Ok ALREADY_SIGNED)
  | Call_sign (Ok NO_RESERVATION) => true
  | _ => false
  end.

Definition is_login (c : call) : bool :=
  match c with Call_login _ _ => true | Call_sign _ => false end.

Definition is_sign (c : call) : bool :=
  match c with Call_sign _ => true | Call_login _ _ => false end.

(** The values the exchange of [login] needs: in the login form, in the
    two redirections, in the url, and in the cookie header. *)
Definition has_form_value (attr : input_element → option str) (key : str)
    (res : response) : bool :=
  match html_inputs res with
  | Some doc => negb (bool_decide (xpath_value attr key doc = []))
  | None => false
  end.

Definition has_tail (lit : str) (t : option str) : bool :=
  match t with
  | Some t => bool_decide (is_Some (search (match_tail lit) t))
  | None => false
  end.

Definition has_lazy (lit : str) (d : N) (t : option str) : bool :=
  match t with
  | Some t => bool_decide (is_Some (search (match_lazy lit d) t))
  | None => false
  end.

Definition values_present `{Runtime} (url : str) (form posted redirected
    token : response) : bool :=
  let location := assoc (py "Location") (headers redirected) in
  has_form_value attr_id (py "lt") form
  && has_form_value attr_name (py "execution") form
  && has_tail (py "ticket=") (assoc (py "Location") (headers posted))
  && has_tail (py "service=") (Some url)
  && has_tail (py "uniToken=") (unquote <$> location)
  && has_lazy (py "uuid=") 38 (unquote <$> location)
  && has_lazy (py "ic-cookie=") 59 (assoc (py "Set-Cookie") (headers token)).

(** A step that leaves the stored cookie as it is, whatever it returns. *)
Definition keeps {A} (m : M A) : Prop :=
  ∀ s, cookies (m s).2 = cookies s.

(** A method that leaves the stored cookie as it is unless it returns
    [SUCCESS]. *)
Definition frames (m : M ReturnCode) : Prop :=
  ∀ s, (m s).1 = Ok SUCCESS ∨ cookies (m s).2 = cookies s.

(** A method all of whose returned values satisfy [P]. *)
Definition yields {A} (P : A → Prop) (m : M A) : Prop :=
  ∀ s a, (m s).1 = Ok a → P a.

(** Every call after which the loop is left is the last call. *)
Fixpoint stops_only_at_end (cs : list call) : bool :=
  match cs with
  | [] => true
  | c :: rest =>
    (negb (stops c) || bool_decide (rest = [])) && stops_only_at_end rest
  end.

(** What is known of the calls of a run with at most [n] passes. *)
Definition bounded (n : nat) (r : run) : Prop :=
  (length (List.filter is_login (run_calls r)) ≤ n)%nat
  ∧ (length (List.filter is_sign (run_calls r)) ≤ n)%nat
  ∧ stops_only_at_end (run_calls r) = true.

(** A step that sends no device-login request. *)
Definition quiet {A} (m : M A) : Prop :=
  ∀ s, seat_logins (sent (m s).2) = seat_logins (sent s).

(** A step that leaves the seat tables as they are. *)
Definition reads_tables {A} (m : M A) : Prop :=
  ∀ s, json_dir (m s).2 = json_dir s.

(** ** Sample data *)

Ltac cases_N :=
  repeat match goal with
  | |- context [N.leb ?a ?b] => destruct (N.leb_spec a b); try lia
  | |- context [N.eqb ?a ?b] => destruct (N.eqb_spec a b); try lia
  | H : context [N.leb ?a ?b] |- _ => destruct (N.leb_spec a b); try lia
  | H : context [N.eqb ?a ?b] |- _ => destruct (N.eqb_spec a b); try lia
  end.

Definition ascii_digit (c : N) : bool := (48 <=? c) && (c <=? 57).

(** An interpreter for ASCII text: the digits are [0] to [9], the urls
    carry no percent escapes, the seat names have no letters to fold, the
    cipher is left out, and a thousand nested calls are allowed. *)
Definition ascii_runtime : Runtime.
Proof.
  refine {| re_digit := ascii_digit; unquote := λ s, s; RSA_strEnc := Ok;
            lower := λ s, s; upper := λ s, s; recursion_limit := 1000;
            name_too_long := λ p, Nat.ltb 4095 (length p);
            re_digit_not_space := _ |}.
  intros c Hc. unfold ascii_digit in Hc. unfold isspace.
  apply andb_prop in Hc as [H1%N.leb_le H2%N.leb_le]. cases_N; done.
Defined.

Definition uuid_a : str := py "0123abcd-0123-4567-89ab-0123456789ab".
Definition uuid_b : str := py "ffffffff-0000-1111-2222-333333333333".
Definition cache_path : str := py "cookie_cache".

(** A cache with a name of two words. *)
Definition two_word_cache : gmap str str := {[ py "Zhang San" := uuid_a ]}.

(** A cache with a cookie that is no UUID. *)
Definition mixed_cache : gmap str str :=
  {[ py "alice" := uuid_a; py "bob" := py "expired" ]}.

(** A cache file with an empty second line. *)
Definition blank_line_file : str :=
  py "alice " ++ uuid_a ++ [10; 10] ++ py "bob " ++ uuid_b ++ [10].

(** Replies and states. *)
Definition json_reply (j : json) : response :=
  {| text := []; headers := []; json_body := Some j; html_inputs := None |}.

Definition header_reply (key value : str) : response :=
  {| text := []; headers := [(key, value)]; json_body := None;
     html_inputs := None |}.

Definition form_reply (inputs : list input_element) : response :=
  {| text := []; headers := []; json_body := None;
     html_inputs := Some inputs |}.

Definition seat (devName : str) (devSn : Z) : json :=
  JDict [(py "devName", JStr devName); (py "devId", JInt (devSn + 100));
         (py "devSn", JInt devSn)].

Definition seat_tables : gmap str json :=
  {[ py "json/101.json" :=
       JDict [(py "data", JList [seat (py "101-011") 11;
                                 seat (py "101-012") 12;
                                 seat (py "101-013") 13])] ]}.

(** The object of alice with a cookie, facing a portal with the replies. *)
Definition alice (cookie : str) (replies : list (result response)) : state :=
  {| name := py "alice"; username := py "2024001"; password := py "secret";
     pushplus_token := []; cookies := cookie; login_url := Some [];
     json_dir := seat_tables; portal := replies; sent := []; logged := [] |}.

Definition resv (resvStatus : Z) (devName : str) : json :=
  JDict [(py "resvStatus", JInt resvStatus);
         (py "resvDevInfoList", JList [JDict [(py "devName", JStr devName)]])].

(** The reservation list of the end-to-end scenario: statuses 2, 64 and
    2112. *)
Definition three_reservations : list (str * json) :=
  [(py "code", JInt 0); (py "count", JInt 3);
   (py "data", JList [resv 2 (py "101-011"); resv 64 (py "101-012");
                      resv 2112 (py "101-013")])].

(** The replies of a login that goes through, and of one whose login
    form has no [lt]. *)
Definition login_page : str :=
  py "https://newcas.gzhu.edu.cn/cas/login?service=http://libbooking.gzhu.edu.cn/authcenter/doAuth/abc".

Definition lt_input : input_element :=
  {| attr_id := Some (py "lt"); attr_name := Some (py "lt");
     attr_value := Some (py "LT-1") |}.

Definition execution_input : input_element :=
  {| attr_id := None; attr_name := Some (py "execution");
     attr_value := Some (py "e1s1") |}.

Definition address_reply : response :=
  json_reply
    (JDict [(py "data",
             JStr (py "http://libbooking.gzhu.edu.cn/authcenter/doAuth/abc"))]).

Definition ticket_reply : response :=
  header_reply (py "Location")
    (py "http://libbooking.gzhu.edu.cn/authcenter/doAuth/abc?ticket=ST-42").

Definition session_reply : response :=
  header_reply (py "Location")
    (py "http://libbooking.gzhu.edu.cn/#/cas/?uuid=u-1&uniToken=t-9").

Definition cookie_reply : response :=
  header_reply (py "Set-Cookie") (py "ic-cookie=" ++ uuid_a ++ py "; Path=/").

Definition login_replies (form : list input_element)
  : list (result response) :=
  [Ok address_reply; Ok (header_reply (py "Location") login_page);
   Ok (form_reply form); Ok ticket_reply; Ok session_reply; Ok cookie_reply].

Definition full_login : list (result response) :=
  login_replies [lt_input; execution_input].

Definition login_without_lt : list (result response) :=
  login_replies [execution_input].

(** Device-login replies: one without [data] whose message names the seat
    reserved, and one with [data] and no reservation. *)
Definition redirect_reply (label : str) : response :=
  json_reply
    (JDict [(py "code", JInt 1);
            (py "message", JStr (py "请到预约座位-" ++ label ++ py "处签到"))]).

Definition no_reservation_reply : response :=
  json_reply (JDict [(py "code", JInt 0);
                     (py "data", JDict [(py "reserveInfo", JNull)])]).

(** The portal redirects once, and twice. *)
Definition one_redirect : list (result response) :=
  [Ok (redirect_reply (py "101-012")); Ok no_reservation_reply].

Definition two_redirects : list (result response) :=
  [Ok (redirect_reply (py "101-012")); Ok (redirect_reply (py "101-013"));
   Ok no_reservation_reply].

(** An entry of [infos], and a portal that rejects the cached cookie,
    lets the login through, lists the three reservations and accepts the
    sign-in. *)
Definition stu_alice : student :=
  {| stu_name := py "alice"; stu_sno := py "2024001"; stu_pwd := py "secret";
     stu_pushplus := []; stu_devName := py "101-011"; stu_cookie := None |}.

Definition expired_then_signed : list (result response) :=
  [Ok (json_reply (JDict [(py "code", JInt 300)]))]
  ++ full_login
  ++ [Ok (json_reply (JDict three_reservations));
      Ok (json_reply
            (JDict [(py "data",
                     JDict [(py "reserveInfo",
                             JDict [(py "resvId", JInt 77)])])]));
      Ok (json_reply (JDict [(py "message", JStr (py "操作成功"))]))].

(** ** The command line of [sign.py]

    [name_cookie_pairs] is the list of the positional arguments; [infos]
    is the list of [libs/info.py], one [student] per entry. *)

(** [pair.split(':', 1)] *)
Definition split_colon_1 (arg : str) : list str :=
  let head := takewhile (λ c, negb (c =? 58)) arg in
  match dropwhile (λ c, negb (c =? 58)) arg with
  | [] => [head]
  | _ :: rest => [head; rest]
  end.

(** The loop that fills [targets]: the name maps to the cookie, or to
    [None] when the argument has no colon. *)
Fixpoint parse_pairs (name_cookie_pairs : list str)
    (targets : gmap str (option str)) : gmap str (option str) :=
  match name_cookie_pairs with
  | [] => targets
  | arg :: rest =>
    match split_colon_1 arg with
    | [n; c] => parse_pairs rest (<[n := Some c]> targets)
    | n :: _ => parse_pairs rest (<[n := None]> targets)
    | [] => parse_pairs rest targets
    end
  end.

(** [stu['cookie'] = cookie] *)
Definition set_stu_cookie (cookie : str) (stu : student) : student :=
  {| stu_name := stu_name stu; stu_sno := stu_sno stu; stu_pwd := stu_pwd stu;
     stu_pushplus := stu_pushplus stu; stu_devName := stu_devName stu;
     stu_cookie := Some cookie |}.

(** The loop over [infos] that fills [target_infos]. *)
Fixpoint select_targets (infos : list student)
    (targets : gmap str (option str)) : list student :=
  match infos with
  | [] => []
  | stu :: rest =>
    match targets !! stu_name stu with
    | Some (Some cookie) =>
      set_stu_cookie cookie stu :: select_targets rest targets
    | Some None => stu :: select_targets rest targets
    | None => select_targets rest targets
    end
  end.

Definition target_infos (name_cookie_pairs : list str)
    (infos : list student) : list student :=
  match name_cookie_pairs with
  | [] => infos
  | _ => select_targets infos (parse_pairs name_cookie_pairs ∅)
  end.

(** ** [main] over all entries *)

Section Main.
Variable yy_login : bool → M ReturnCode.
Variable yy_sign_for_ahead_reservation : M ReturnCode.
Variable yy_pushplus : str → str + exn → M unit.

(** The body of the loop over [target_infos] for one entry, telling apart
    an exception that the handler swallowed (the run is returned) from an
    exception of the handler's own report, which leaves [main]. *)
Definition visit (stu : student) (external_cookies : gmap str str)
    (cookie_dirty : bool) (w : state) : result run * state :=
  let cookie :=
    match stu_cookie stu with
    | Some c => c
    | None => default [] (external_cookies !! stu_name stu)
    end in
  let yy := ZWYT_new stu cookie w in
  let r := attempts yy_login yy_sign_for_ahead_reservation yy_pushplus 2 stu
             SUCCESS external_cookies cookie_dirty yy in
  match run_retc r with
  | Raise e =>
    if bool_decide (stu_pushplus stu = []) then (Ok r, run_state r)
    else
      match yy_pushplus
              (stu_name stu ++ py " " ++ stu_devName stu ++ py " 签到失败")
              (inr e) (run_state r) with
      | (Raise e', s) => (Raise e', s)
      | (Ok _, s) => (Ok r, s)
      end
  | Ok _ => (Ok r, run_state r)
  end.

(** [for stu in target_infos]; the runs are collected in order. *)
Fixpoint visit_all (students : list student)
    (external_cookies : gmap str str) (cookie_dirty : bool) (w : state)
  : result (list run * gmap str str * bool) * state :=
  match students with
  | [] => (Ok ([], external_cookies, cookie_dirty), w)
  | stu :: rest =>
    match visit stu external_cookies cookie_dirty w with
    | (Raise e, w) => (Raise e, w)
    | (Ok r, w) =>
      match visit_all rest (run_cookies r) (run_dirty r) w with
      | (Raise e, w) => (Raise e, w)
      | (Ok (rs, ext, dirty), w) => (Ok (r :: rs, ext, dirty), w)
      end
    end
  end.
End Main.

Section MainWithCache.
Context `{Runtime}.
Variable yy_login : bool → M ReturnCode.
Variable yy_sign_for_ahead_reservation : M ReturnCode.
Variable yy_pushplus : str → str + exn → M unit.

(** [main], from the parsed arguments ([args_cookie] is [args.cookie]) to
    the file store it leaves; the records of the cache functions go to the
    log. *)
Definition main (name_cookie_pairs : list str) (args_cookie : option str)
    (infos : list student) (fs : gmap str node) (w : state)
  : result (list run * gmap str node) * state :=
  let loaded :=
    match args_cookie with
    | Some path => load_cookie_cache fs path
    | None => ([], Ok ∅)
    end in
  let w := foldl (λ w r, add_log r w) w loaded.1 in
  match loaded.2 with
  | Raise e => (Raise e, w)
  | Ok external_cookies =>
    match visit_all yy_login yy_sign_for_ahead_reservation yy_pushplus
            (target_infos name_cookie_pairs infos) external_cookies false w
    with
    | (Raise e, w) => (Raise e, w)
    | (Ok (runs, external_cookies, cookie_dirty), w) =>
      match args_cookie with
      | Some path =>
        if negb (bool_decide (path = [])) && cookie_dirty then
          let saved := save_cookie_cache fs path external_cookies in
          let w := foldl (λ w r, add_log r w) w saved.1 in
          match saved.2 with
          | Raise e => (Raise e, w)
          | Ok fs => (Ok (runs, fs), w)
          end
        else (Ok (runs, fs), w)
      | None => (Ok (runs, fs), w)
      end
    end
  end.
End MainWithCache.

(** ** Booking: [get_person_appAccNo], [get_reserve_date], [reserve]

    The requests and the log records of these methods have types of their
    own, and the methods pass their surroundings along explicitly. *)

Inductive booking_request :=
| Get_userinfo (ic_cookie : str)
| Post_reserve (appAccNo : json) (resvBeginTime resvEndTime : str)
    (resvDev : json) (ic_cookie : str).

Inductive booking_record :=
| Success_reserved (name devName resvBeginTime resvEndTime : str)
| Warn_slot_taken (name resvBeginTime resvEndTime : str)
| Error_reserve (name resvBeginTime : str) (message : json).

Record booking := {
  replies : list (result response);
  requested : list booking_request;
  reported : list booking_record
}.

Definition ask (rq : booking_request) (b : booking)
  : result response * booking :=
  match replies b with
  | [] =>
    (Raise HTTPError,
     {| replies := []; requested := requested b ++ [rq];
        reported := reported b |})
  | r :: rest =>
    (r, {| replies := rest; requested := requested b ++ [rq];
           reported := reported b |})
  end.

Definition report (r : booking_record) (b : booking) : booking :=
  {| replies := replies b; requested := requested b;
     reported := reported b ++ [r] |}.

(** [res.json().get('data').get('accNo')] *)
Definition get_person_appAccNo (ic_cookie : str) (b : booking)
  : result json * booking :=
  let (r, b) := ask (Get_userinfo ic_cookie) b in
  (let* res := r in
   let* body := res_json res in
   let* data := py_get body (py "data") in
   py_get data (py "accNo"), b).

(** The day of the clock, as [datetime] gives its year, month and day. *)
Record date := { year : N; month : N; day : N }.

(** [f"{year}-{month}-{day}"] *)
Definition day_text (d : date) : str :=
  py (pretty (year d)) ++ py "-" ++ py (pretty (month d)) ++ py "-"
  ++ py (pretty (day d)).

(** [period[-1]] *)
Definition index_last {A} (l : list A) : result A :=
  match last l with
  | Some x => Ok x
  | None => Raise IndexError
  end.

(** The loop of [get_reserve_date]: the windows of today and of tomorrow,
    one of each per period. *)
Fixpoint reserve_days (current_day next_day : date)
    (periods : list (list str))
  : result (list (str * str) * list (str * str)) :=
  match periods with
  | [] => Ok ([], [])
  | period :: rest =>
    let* first := index0 period in
    let* final := index_last period in
    let* days := reserve_days current_day next_day rest in
    Ok ((day_text current_day ++ py " " ++ first,
         day_text current_day ++ py " " ++ final) :: days.1,
        (day_text next_day ++ py " " ++ first,
         day_text next_day ++ py " " ++ final) :: days.2)
  end.

(** The list returned holds pairs [(start, end)]. *)
Definition get_reserve_date (current_day next_day : date)
    (periods : list (list str)) : result (list (str * str)) :=
  let* days := reserve_days current_day next_day periods in
  Ok (days.2 ++ days.1).

(** The loop of [reserve] over the windows. *)
Fixpoint reserve_windows (name devName : str) (appAccNo resvDev : json)
    (ic_cookie : str) (dates : list (str * str)) (b : booking)
  : result unit * booking :=
  match dates with
  | [] => (Ok tt, b)
  | d :: rest =>
    let (r, b) := ask (Post_reserve appAccNo d.1 d.2 resvDev ic_cookie) b in
    match (let* res := r in
           let* res_json := res_json res in
           py_get res_json (py "message")) with
    | Raise e => (Raise e, b)
    | Ok message =>
      if json_eq_str message (py "新增成功") then
        reserve_windows name devName appAccNo resvDev ic_cookie rest
          (report (Success_reserved name devName d.1 d.2) b)
      else
        match as_text message with
        | Raise e => (Raise e, b)
        | Ok m =>
          if occurs (py "当前时段有预约") m then
            reserve_windows name devName appAccNo resvDev ic_cookie rest
              (report (Warn_slot_taken name d.1 d.2) b)
          else
            reserve_windows name devName appAccNo resvDev ic_cookie rest
              (report (Error_reserve name d.1 message) b)
        end
    end
  end.

Section Booking.
Context `{Runtime}.

(** [reserve(devName)] for the object [s], with the days of the clock and
    [self.periods]. *)
Definition reserve (current_day next_day : date) (periods : list (list str))
    (devName : str) (s : state) (b : booking) : result unit * booking :=
  match seat_lookup (json_dir s) devName (py "reserve") with
  | Raise e => (Raise e, b)
  | Ok resvDev =>
    let (r, b) := get_person_appAccNo (cookies s) b in
    match r with
    | Raise e => (Raise e, b)
    | Ok appAccNo =>
      match get_reserve_date current_day next_day periods with
      | Raise e => (Raise e, b)
      | Ok dates =>
        reserve_windows (name s) devName appAccNo resvDev (cookies s) dates b
      end
    end
  end.
End Booking.

(** ** Vocabulary of the further statements *)

(** A line of whitespace only. *)
Definition blank (line : str) : bool := forallb isspace line.

Definition is_seat_sign (rq : request) : bool :=
  match rq with Post_seat_sign _ _ => true | _ => false end.

(** The number of sign-in requests among the requests sent. *)
Definition seat_signs (rqs : list request) : nat :=
  length (List.filter is_seat_sign rqs).

Definition is_post_reserve (rq : booking_request) : bool :=
  match rq with Post_reserve _ _ _ _ _ => true | _ => false end.

(** A seat of a table that [get_seat_resvDev_devSn] takes for [devName]. *)
Definition seat_matches `{Runtime} (devName : str) (i : json) : bool :=
  match py_get i (py "devName") with
  | Ok n => json_eq_str n (upper devName) || json_eq_str n (lower devName)
  | Raise _ => false
  end.

Definition is_dict (v : json) : bool :=
  match v with JDict _ => true | _ => false end.

(** A login that returned [SUCCESS]. *)
Definition login_succeeded (c : call) : bool :=
  match c with Call_login _ (Ok SUCCESS) => true | _ => false end.

(** The calls of a run come in pairs of a login and a sign-in; the first
    login is not forced, and a later one is forced exactly when the sign-in
    before it returned [COOKIE_EXPIRED]. [retc] is what the loop holds
    before the first call. *)
Fixpoint well_ordered (retc : ReturnCode) (cs : list call) : bool :=
  match cs with
  | [] => true
  | Call_login f _ :: rest =>
    bool_decide (f = bool_decide (retc = COOKIE_EXPIRED))
    && match rest with
       | [] => true
       | Call_sign (Ok rc) :: rest' => well_ordered rc rest'
       | Call_sign (Raise _) :: rest' => bool_decide (rest' = [])
       | Call_login _ _ :: _ => false
       end
  | Call_sign _ :: _ => false
  end.

(** A cache file with a line of one field, a line whose second field is
    no UUID, and a line padded with blanks and a tab. *)
Definition untidy_cache_file : str :=
  py "alice " ++ uuid_a ++ [10] ++ py "bob" ++ [10] ++ py "carol expired"
  ++ [10; 32; 32] ++ py "dave" ++ [9] ++ uuid_b ++ [32; 13; 10].

(** A reply to a booking request whose [message] is a text. *)
Definition has_text_message (res : response) : Prop :=
  ∃ body m,
    json_body res = Some body ∧ py_get body (py "message") = Ok (JStr m).

(** A reply to a booking request whose [message] is no text. *)
Definition has_no_text_message (res : response) : Prop :=
  ∃ body v,
    json_body res = Some body ∧ py_get body (py "message") = Ok v
    ∧ as_text v = Raise TypeError.

(** Replies to booking requests: created, slot taken, refused, and one
    without a message. *)
Definition message_reply (m : str) : response :=
  json_reply (JDict [(py "message", JStr m)]).

Definition booking_replies : list (result response) :=
  [Ok (json_reply (JDict [(py "data", JDict [(py "accNo", JInt 7)])]));
   Ok (message_reply (py "新增成功"));
   Ok (message_reply (py "预约失败"));
   Ok (message_reply (py "当前时段有预约, 请重新选择"));
   Ok (message_reply (py "新增成功"))].

(** Methods that always raise, and a file store whose cache holds a
    cookie of alice that the portal rejects. *)
Definition always_raises {A} : M A := lift (Raise HTTPError).

Definition stale_store : gmap str node :=
  {[ cache_path := File (py "alice " ++ uuid_b ++ [10]) ]}.

(** A run of [main] with the cache, for alice, on the portal that rejects
    the cached cookie and then lets the login and the sign-in through. *)
Definition cache_run
  : result (list run * gmap str node) * state :=
  main (H := ascii_runtime) (@login ascii_runtime)
    (@sign_for_ahead_reservation ascii_runtime) pushplus
    [] (Some cache_path) [stu_alice] stale_store
    (alice [] expired_then_signed).

(** * Proofs *)

(** ** Strings *)

Lemma forallb_weaken (p q : N → bool) (s : str) :
  (∀ c, p c = true → q c = true) →
  forallb p s = true → forallb q s = true.
Proof.
  intros Hpq. induction s as [|c s IH]; simpl; [done|].
  intros [Hc Hs]%andb_prop. by rewrite (Hpq c Hc), IH.
Qed.

Lemma dropwhile_app_all p (a b : str) :
  forallb p a = true → dropwhile p (a ++ b) = dropwhile p b.
Proof.
  induction a as [|c a IH]; simpl; [done|].
  intros [Hc Ha]%andb_prop. rewrite Hc. auto.
Qed.

Lemma takewhile_app_stop p (a : str) c b :
  forallb p a = true → p c = false → takewhile p (a ++ c :: b) = a.
Proof.
  induction a as [|d a IH]; simpl; intros Ha Hc.
  - by rewrite Hc.
  - apply andb_prop in Ha as [Hd Ha]. rewrite Hd. f_equal. auto.
Qed.

Lemma takewhile_all p (a : str) : forallb p a = true → takewhile p a = a.
Proof.
  induction a as [|d a IH]; simpl; [done|].
  intros [Hd Ha]%andb_prop. rewrite Hd. f_equal. auto.
Qed.

Lemma dropwhile_all p (a : str) : forallb p a = true → dropwhile p a = [].
Proof.
  intros Ha. rewrite <- (app_nil_r a), dropwhile_app_all by done. done.
Qed.

Lemma rstrip_snoc s c :
  rstrip (s ++ [c]) = if isspace c then rstrip s else s ++ [c].
Proof.
  unfold rstrip. rewrite rev_app_distr. simpl.
  destruct (isspace c); [done|]. simpl. by rewrite rev_involutive.
Qed.

Lemma rstrip_app a b :
  rstrip (a ++ b) = match rstrip b with [] => rstrip a | _ => a ++ rstrip b end.
Proof.
  induction b as [|c b IH] using rev_ind.
  - by rewrite app_nil_r.
  - rewrite app_assoc, !rstrip_snoc. destruct (isspace c).
    + done.
    + rewrite <- app_assoc. by destruct b.
Qed.

Lemma rstrip_nil_all s : rstrip s = [] → forallb isspace s = true.
Proof.
  induction s as [|c s IH] using rev_ind; [done|].
  rewrite rstrip_snoc, forallb_app. simpl.
  destruct (isspace c).
  - intros Hs%IH. by rewrite Hs.
  - by destruct s.
Qed.

Lemma rstrip_no_space s :
  forallb (λ c, negb (isspace c)) s = true → rstrip s = s.
Proof.
  induction s as [|c s IH] using rev_ind; [done|].
  rewrite forallb_app, rstrip_snoc. simpl.
  intros [_ Hc]%andb_prop. by destruct (isspace c).
Qed.

Lemma lstrip_no_space s :
  forallb (λ c, negb (isspace c)) s = true → lstrip s = s.
Proof.
  unfold lstrip. destruct s as [|c s]; simpl; [done|]. by destruct (isspace c).
Qed.

Lemma strip_no_space s :
  forallb (λ c, negb (isspace c)) s = true → strip s = s.
Proof.
  intros Hs. unfold strip. rewrite lstrip_no_space by done.
  by apply rstrip_no_space.
Qed.

Lemma rstrip_cons c s :
  rstrip (c :: s) =
  match rstrip s with [] => if isspace c then [] else [c] | r => c :: r end.
Proof.
  change (c :: s) with ([c] ++ s). rewrite rstrip_app.
  destruct (rstrip s); [|done].
  change [c] with ([] ++ [c]). rewrite rstrip_snoc. by destruct (isspace c).
Qed.

Lemma lstrip_cons c s :
  lstrip (c :: s) = if isspace c then lstrip s else c :: s.
Proof. done. Qed.

(** Stripping on the left and on the right commute. *)
Lemma lstrip_rstrip s : lstrip (rstrip s) = rstrip (lstrip s).
Proof.
  induction s as [|c s IH]; [done|].
  rewrite lstrip_cons. destruct (isspace c) eqn:Hc.
  - rewrite <- IH, rstrip_cons, Hc.
    destruct (rstrip s); [done|]. by rewrite lstrip_cons, Hc.
  - rewrite rstrip_cons, Hc. destruct (rstrip s); by rewrite lstrip_cons, Hc.
Qed.

(** ** The cookie cache *)

Lemma universal_newlines_id s :
  forallb (λ c, negb (c =? 13)) s = true → universal_newlines s = s.
Proof.
  induction s as [|c s IH]; simpl; [done|].
  intros [Hc Hs]%andb_prop. destruct (c =? 13); [done|]. f_equal. auto.
Qed.

Lemma readlines_line body rest :
  forallb (λ c, negb (c =? 10)) body = true →
  readlines (body ++ 10 :: rest) = (body ++ [10]) :: readlines rest.
Proof.
  induction body as [|c body IH]; simpl; [done|].
  intros [Hc Hb]%andb_prop. destruct (c =? 10); [done|]. by rewrite IH.
Qed.

Lemma name_ok_inv name :
  name_ok name = true →
  name ≠ [] ∧ forallb (λ c, negb (isspace c)) name = true.
Proof.
  unfold name_ok. intros [Hn Hs]%andb_prop. split; [|done].
  intros ->. done.
Qed.

(** The two fields read from a line that [save_cookie_cache] wrote. *)
Lemma parse_cache_line name cookie :
  name_ok name = true →
  split_None_1 (strip (cache_line (name, cookie))) =
  match strip cookie with [] => [name] | v => [name; v] end.
Proof.
  intros [Hne Hns]%name_ok_inv. unfold cache_line. simpl.
  destruct name as [|c name]; [done|]. clear Hne.
  assert (Hc : isspace c = false).
  { simpl in Hns. apply andb_prop in Hns as [Hc _]. by destruct (isspace c). }
  unfold strip at 1. rewrite <- app_comm_cons, lstrip_cons, Hc.
  rewrite app_comm_cons, rstrip_app.
  change (32 :: cookie ++ [10]) with ([32] ++ (cookie ++ [10])).
  rewrite rstrip_app, rstrip_snoc. change (isspace 10) with true. cbv iota.
  unfold strip. rewrite <- lstrip_rstrip.
  destruct (rstrip cookie) as [|d r] eqn:Hr.
  - change (rstrip [32]) with (@nil N). rewrite rstrip_no_space by done.
    simpl in Hns. apply andb_prop in Hns as [_ Hns].
    unfold split_None_1. simpl. rewrite !Hc. simpl. rewrite ?Hc. simpl.
    rewrite takewhile_all, (dropwhile_all (λ c0, negb (isspace c0)) name)
      by done.
    done.
  - simpl app. unfold split_None_1. simpl dropwhile at 1. rewrite Hc.
    rewrite !(app_comm_cons name _ c).
    rewrite (takewhile_app_stop _ (c :: name) 32) by done.
    rewrite (dropwhile_app_all _ (c :: name)) by done.
    done.
Qed.

Lemma cache_line_no_cr name cookie :
  name_ok name = true → one_line cookie = true →
  forallb (λ c, negb (c =? 13)) (cache_line (name, cookie)) = true.
Proof.
  intros [_ Hns]%name_ok_inv Hc. unfold cache_line. simpl.
  rewrite forallb_app. simpl. rewrite forallb_app. simpl.
  rewrite andb_true_r.
  apply andb_true_intro. split.
  - eapply forallb_weaken; [|exact Hns]. intros c Hs. simpl in Hs.
    destruct (N.eqb_spec c 13) as [->|]; done.
  - eapply forallb_weaken; [|exact Hc]. intros c Hs. simpl in Hs.
    by apply andb_prop in Hs as [_ ?].
Qed.

Lemma cache_line_body name cookie :
  name_ok name = true → one_line cookie = true →
  forallb (λ c, negb (c =? 10)) (name ++ 32 :: cookie) = true.
Proof.
  intros [_ Hns]%name_ok_inv Hc.
  rewrite forallb_app. simpl.
  apply andb_true_intro. split.
  - eapply forallb_weaken; [|exact Hns]. intros c Hs. simpl in Hs.
    destruct (N.eqb_spec c 10) as [->|]; done.
  - eapply forallb_weaken; [|exact Hc]. intros c Hs. simpl in Hs.
    by apply andb_prop in Hs as [? _].
Qed.

(** The lines read back are the lines written. *)
Lemma readlines_cache_lines (l : list (str * str)) :
  Forall (λ e, name_ok e.1 = true ∧ one_line e.2 = true) l →
  readlines (universal_newlines (concat (map cache_line l))) =
  map cache_line l.
Proof.
  intros Hl. rewrite universal_newlines_id.
  - induction Hl as [|[n t] l [Hn Ht] Hl IH]; [done|]. simpl.
    unfold cache_line at 1. simpl.
    replace ((n ++ 32 :: t ++ [10]) ++ concat (map cache_line l))
      with ((n ++ 32 :: t) ++ 10 :: concat (map cache_line l))
      by (rewrite <- !app_assoc; simpl; by rewrite <- app_assoc).
    rewrite readlines_line by (by apply cache_line_body).
    rewrite IH. unfold cache_line. simpl. by rewrite <- app_assoc.
  - induction Hl as [|[n t] l [Hn Ht] Hl IH]; [done|]. simpl.
    rewrite forallb_app, IH, andb_true_r. by apply cache_line_no_cr.
Qed.


Section CookieCacheProofs.
Context `{Runtime}.
#[local] Arguments fullmatch : simpl never.

Lemma in_class_not_space c cl : in_class c cl = true → isspace c = false.
Proof.
  destruct cl; simpl.
  - intros [Hc|Hc]%orb_prop; [|by apply re_digit_not_space].
    unfold isspace. cases_N; done.
  - intros ->%N.eqb_eq. done.
Qed.

Lemma fullmatch_no_space p s :
  fullmatch p s = true → forallb (λ c, negb (isspace c)) s = true.
Proof.
  revert s. induction p as [|cl p IH]; intros [|c s]; simpl; try done.
  intros [Hc Hs]%andb_prop. by rewrite (in_class_not_space c cl), IH.
Qed.

(** A UUID is read back as it was written. *)
Lemma kept_uuid cookie :
  fullmatch uuid_pattern cookie = true → kept cookie = Some cookie.
Proof.
  intros Hm. unfold kept.
  rewrite strip_no_space by (by eapply fullmatch_no_space). by rewrite Hm.
Qed.

Lemma uuid_one_line cookie :
  fullmatch uuid_pattern cookie = true → one_line cookie = true.
Proof.
  intros Hm%fullmatch_no_space. eapply forallb_weaken; [|exact Hm].
  intros c Hc. simpl in Hc.
  destruct (N.eqb_spec c 10) as [->|]; [done|].
  destruct (N.eqb_spec c 13) as [->|]; done.
Qed.

Lemma kept_is_uuid cookie v :
  kept cookie = Some v → fullmatch uuid_pattern v = true.
Proof.
  unfold kept. destruct (fullmatch _ (strip cookie)) eqn:Hm; [|done].
  by intros [= <-].
Qed.

(** Reading the written lines stores the kept cookies, line by line. *)
Lemma load_written_lines (l : list (str * str)) (m : gmap str str) :
  Forall (λ e, name_ok e.1 = true) l →
  (load_lines (map cache_line l) m).2 = Ok (foldl store m l).
Proof.
  intros Hl. revert m.
  induction Hl as [|[n t] l Hn Hl IH]; intros m; [done|].
  simpl in Hn.
  change (foldl store m ((n, t) :: l)) with (foldl store (store m (n, t)) l).
  rewrite <- IH.
  change (map cache_line ((n, t) :: l))
    with (cache_line (n, t) :: map cache_line l).
  cbn [load_lines]. rewrite parse_cache_line by done.
  unfold store, kept. cbn [fst snd].
  destruct (strip t) as [|c v] eqn:Hs.
  - replace (fullmatch uuid_pattern []) with false by done. by destruct n.
  - by destruct (fullmatch uuid_pattern (c :: v)).
Qed.

Lemma store_lookup_ne m n t k : n ≠ k → store m (n, t) !! k = m !! k.
Proof.
  intros Hne. unfold store. simpl. destruct (kept t); [|done].
  by rewrite lookup_insert_ne.
Qed.

Lemma foldl_store_lookup (l : list (str * str)) (m : gmap str str) k :
  NoDup l.*1 →
  foldl store m l !! k =
  match (list_to_map l : gmap str str) !! k with
  | Some t => match kept t with Some v => Some v | None => m !! k end
  | None => m !! k
  end.
Proof.
  revert m. induction l as [|[n t] l IH]; intros m Hnd; [done|].
  apply NoDup_cons in Hnd as [Hn Hnd]. simpl.
  rewrite IH by done. destruct (decide (n = k)) as [->|Hne].
  - rewrite lookup_insert_eq.
    rewrite (not_elem_of_list_to_map_1 l k) by done.
    unfold store. simpl. destruct (kept t); [|done].
    by rewrite lookup_insert_eq.
  - rewrite lookup_insert_ne by done. rewrite store_lookup_ne by done. done.
Qed.

Lemma foldl_store_map_to_list (d : gmap str str) :
  foldl store ∅ (map_to_list d) = omap kept d.
Proof.
  apply map_eq. intros k.
  rewrite foldl_store_lookup by apply NoDup_fst_map_to_list.
  rewrite list_to_map_to_list, lookup_omap, lookup_empty.
  destruct (d !! k) as [t|]; simpl; [|done]. by destruct (kept t).
Qed.

(** Writing a dict and reading the file back. *)
Lemma load_save (fs : gmap str node) (path : str) (d : gmap str str) :
  fs !! path ≠ Some Directory →
  map_Forall (λ n t, name_ok n = true ∧ one_line t = true) d →
  ∃ fs', (save_cookie_cache fs path d).2 = Ok fs'
         ∧ (load_cookie_cache fs' path).2 = Ok (omap kept d).
Proof.
  intros Hdir Hd.
  exists (<[path := File (cache_text d)]> fs). split.
  - unfold save_cookie_cache. by destruct (fs !! path) as [[]|].
  - unfold load_cookie_cache, Path_exists, open_read.
    rewrite lookup_insert_eq. unfold cache_text.
    assert (Forall (λ e, name_ok e.1 = true ∧ one_line e.2 = true)
              (map_to_list d)) as Hl.
    { apply Forall_forall. intros [n t] Hin%elem_of_map_to_list.
      exact (Hd n t Hin). }
    rewrite readlines_cache_lines by done.
    rewrite load_written_lines.
    + by rewrite foldl_store_map_to_list.
    + eapply Forall_impl; [exact Hl|]. by intros ? [? _].
Qed.
End CookieCacheProofs.

(** *** Claims about the cookie cache *)

Lemma strip_blank line : forallb isspace line = true → strip line = [].
Proof. intros Hl. unfold strip, lstrip. by rewrite dropwhile_all. Qed.

(** Reaching a line of whitespace only ends the reading with the
    [IndexError] of [line[0]]. *)
Lemma load_lines_blank `{Runtime} line rest m :
  forallb isspace line = true →
  load_lines (line :: rest) m = ([], Raise IndexError).
Proof. intros Hl. cbn [load_lines]. by rewrite strip_blank. Qed.

(** C8. A cache file whose second line is empty: [load_cookie_cache] does
    not skip the line with a warning and go on to the third; it raises
    [IndexError], and no mapping is returned. *)
Theorem blank_line_is_fatal :
  @load_cookie_cache ascii_runtime {[cache_path := File blank_line_file]}
    cache_path
  = ([], Raise IndexError).
Proof. vm_compute. reflexivity. Qed.

(** C10, as amended. For a path without an entry in the store:
    if the path is not empty and not longer than the platform allows,
    [load_cookie_cache] logs the warning and returns the empty dict, which
    is also what it returns for an empty file at that path; if the path is
    empty, [Path(path).exists()] holds of the current directory and
    [open] raises [FileNotFoundError]; if it is too long, the [OSError] of
    [exists] is raised. *)
Theorem load_missing_cache `{Runtime} (fs : gmap str node) (path : str) :
  fs !! path = None →
  (path ≠ [] → name_too_long path = false →
   load_cookie_cache fs path = ([Warn_cache_missing path], Ok ∅)
   ∧ ∀ fs0 : gmap str node,
       fs0 !! path = Some (File []) →
       (load_cookie_cache fs0 path).2 = (load_cookie_cache fs path).2)
  ∧ (path = [] → load_cookie_cache fs path = ([], Raise FileNotFoundError))
  ∧ (path ≠ [] → name_too_long path = true →
     load_cookie_cache fs path = ([], Raise OSError)).
Proof.
  intros Hnone. unfold load_cookie_cache, Path_exists, open_read.
  rewrite Hnone. split; [|split].
  - intros Hne Hlen. rewrite bool_decide_eq_false_2, Hlen by done.
    split; [done|]. intros fs0 ->. done.
  - intros ->. done.
  - intros Hne Hlen. by rewrite bool_decide_eq_false_2, Hlen.
Qed.

Lemma load_missing_cache_witness :
  @load_cookie_cache ascii_runtime ∅ cache_path
  = ([Warn_cache_missing cache_path], Ok ∅).
Proof.
  refine (proj1 (proj1 (@load_missing_cache ascii_runtime ∅ cache_path _)
                   _ _)).
  - apply lookup_empty.
  - discriminate.
  - reflexivity.
Defined.

(** C10, as stated, fails: the empty path names no file, in a store that
    has no entry at all, and [load_cookie_cache] raises. *)
Lemma empty_path_is_fatal :
  (∅ : gmap str node) !! ([] : str) = None
  ∧ @load_cookie_cache ascii_runtime ∅ [] = ([], Raise FileNotFoundError).
Proof. split; [apply lookup_empty|reflexivity]. Qed.

Section CookieCacheClaims.
Context `{Runtime}.
#[local] Arguments fullmatch : simpl never.
#[local] Arguments kept : simpl never.

Lemma omap_kept_uuids (d : gmap str str) :
  map_Forall (λ _ t, fullmatch uuid_pattern t = true) d → omap kept d = d.
Proof.
  intros Hd. apply map_eq. intros k. rewrite lookup_omap.
  destruct (d !! k) as [t|] eqn:Hk; [|done]. simpl.
  apply kept_uuid. exact (Hd k t Hk).
Qed.

Lemma omap_kept_are_uuids (d : gmap str str) :
  map_Forall (λ _ t, fullmatch uuid_pattern t = true) (omap kept d).
Proof.
  intros k v. rewrite lookup_omap.
  destruct (d !! k) as [t|]; simpl; [|done]. apply kept_is_uuid.
Qed.

End CookieCacheClaims.



(** ** The status bitmask *)

Lemma land_pow2_zero (m : Z) (n : Z) :
  (0 <= n)%Z → (Z.land m (2 ^ n) =? 0)%Z = negb (Z.testbit m n).
Proof.
  intros Hn. destruct (Z.testbit m n) eqn:Hb; simpl.
  - apply Z.eqb_neq. intros Hz.
    assert (Z.testbit (Z.land m (2 ^ n)) n = true) as Ht.
    { by rewrite Z.land_spec, Hb, Z.pow2_bits_true. }
    rewrite Hz, Z.bits_0 in Ht. discriminate.
  - apply Z.eqb_eq. apply Z.bits_inj'. intros k Hk.
    rewrite Z.land_spec, Z.bits_0.
    destruct (decide (n = k)) as [<-|Hne].
    + by rewrite Hb.
    + rewrite Z.pow2_bits_false by done. apply andb_false_r.
Qed.

(** In terms of bits: bit 6 (checked in) is clear or bit 11 (away for a
    while) is set. *)
Lemma needs_sign_in_bits (m : Z) :
  needs_sign_in m = negb (Z.testbit m 6) || Z.testbit m 11.
Proof.
  unfold needs_sign_in.
  change 64%Z with (2 ^ 6)%Z. change 2048%Z with (2 ^ 11)%Z.
  rewrite !land_pow2_zero by done. by rewrite negb_involutive.
Qed.

(** C1. The test that selects the reservation records holds of a bitmask
    [m] exactly when [(m & 64) == 0] or [(m & 2048) != 0]; it holds of
    [1], of [64|2048] and of [6], and fails of [64]. *)
Theorem needs_sign_in_spec :
  (∀ m : Z,
     needs_sign_in m = true ↔ (Z.land m 64 = 0 ∨ Z.land m 2048 ≠ 0)%Z)
  ∧ (∀ m : Z, needs_sign_in m = negb (Z.testbit m 6) || Z.testbit m 11)
  ∧ needs_sign_in 1 = true
  ∧ needs_sign_in 64 = false
  ∧ needs_sign_in (Z.lor 64 2048) = true
  ∧ needs_sign_in 6 = true.
Proof.
  split; [|split; [exact needs_sign_in_bits|done]].
  intros m. unfold needs_sign_in. rewrite orb_true_iff, negb_true_iff.
  by rewrite Z.eqb_eq, Z.eqb_neq.
Qed.

(** ** The reservation list *)

Ltac run_M :=
  unfold bind, get, log, modify, lift, ret, http, try_; cbn [fst snd].

Lemma select_resv_filter (items : list json) :
  Forall (λ item, ∃ m, status_of item = Ok m) items →
  select_resv items = Ok (List.filter record_needs_sign_in items).
Proof.
  induction 1 as [|item items [m Hm] _ IH]; [done|].
  cbn [select_resv List.filter]. unfold record_needs_sign_in. rewrite Hm.
  unfold status_of in Hm.
  destruct (py_get item (py "resvStatus")) as [st|]; [|done].
  cbn [rbind] in *. rewrite Hm. cbn [rbind]. rewrite IH. done.
Qed.

Ltac split_positive :=
  repeat match goal with
  | |- context [match ?p with xI _ => _ | xO _ => _ | xH => _ end] =>
    destruct p
  end.

(** C4. The reply to the reservation query is a JSON object. With code
    [300] the result is (nothing, [COOKIE_EXPIRED]); with a code other than
    [0] and [300], (nothing, [FAILED]); with code [0], a list of records
    that have a status and a count: (nothing, [NO_RESERVATION]) when no
    record passes the test, and otherwise the first record that passes it,
    in the order of the reply, with [SUCCESS]. *)
Theorem resv_code_mapping (s : state) (res : response)
    (rest : list (result response)) (d : list (str * json)) :
  portal s = Ok res :: rest →
  json_body res = Some (JDict d) →
  let code := default JNull (assoc (py "code") d) in
  let out := (get_ahead_reservation s).1 in
  (py_num code = Some 300%Z → out = Ok (None, COOKIE_EXPIRED))
  ∧ (py_num code ≠ Some 0%Z → py_num code ≠ Some 300%Z →
     out = Ok (None, FAILED))
  ∧ (py_num code = Some 0%Z →
     ∀ items total,
       assoc (py "data") d = Some (JList items) →
       Forall (λ item, ∃ m, status_of item = Ok m) items →
       py_int (default JNull (assoc (py "count") d)) = Ok total →
       out = Ok (match List.filter record_needs_sign_in items with
                 | [] => (None, NO_RESERVATION)
                 | first :: _ => (Some first, SUCCESS)
                 end)).
Proof.
  intros Hp Hj code out. subst out.
  unfold get_ahead_reservation. run_M. cbn [portal add_log]. rewrite Hp.
  unfold res_json. rewrite Hj. cbn [py_get]. fold code.
  split; [|split].
  - intros ->. done.
  - intros H0 H300. destruct (py_num code) as [[|p|p]|]; try done.
    split_positive; done.
  - intros -> items total Hd Hi Hc. rewrite Hc, Hd. cbn [default from_option].
    unfold id. cbn [py_iter]. rewrite (select_resv_filter items Hi).
    destruct (List.filter record_needs_sign_in items) as [|first others];
      [done|].
    by destruct (bool_decide (others = [])).
Qed.

Lemma resv_code_mapping_witness :
  (get_ahead_reservation
     (alice uuid_a [Ok (json_reply (JDict three_reservations))])).1
  = Ok (Some (resv 2 (py "101-011")), SUCCESS).
Proof.
  destruct (resv_code_mapping
              (alice uuid_a [Ok (json_reply (JDict three_reservations))])
              (json_reply (JDict three_reservations)) []
              three_reservations eq_refl eq_refl) as (_ & _ & H0).
  apply (H0 eq_refl _ 3%Z eq_refl); [|reflexivity].
  repeat constructor; eexists; reflexivity.
Defined.

(** ** The cookie stored by [login] *)

Lemma keeps_ret {A} (a : A) : keeps (ret a).
Proof. done. Qed.

Lemma keeps_lift {A} (r : result A) : keeps (lift r).
Proof. done. Qed.

Lemma keeps_get : keeps get.
Proof. done. Qed.

Lemma keeps_log r : keeps (log r).
Proof. done. Qed.

Lemma keeps_http rq : keeps (http rq).
Proof. intros s. unfold http. by destruct (portal s). Qed.

Lemma keeps_set_login_url u : keeps (modify (set_login_url u)).
Proof. done. Qed.

Lemma keeps_bind {A B} (m : M A) (k : A → M B) :
  keeps m → (∀ a, keeps (k a)) → keeps (bind m k).
Proof.
  intros Hm Hk s. unfold bind. specialize (Hm s).
  destruct (m s) as [[a|e] s']; simpl in *; [|done].
  by rewrite Hk.
Qed.

Lemma keeps_try {A} (m : M A) : keeps m → keeps (try_ m).
Proof.
  intros Hm s. unfold try_. specialize (Hm s). by destruct (m s).
Qed.

Lemma frames_keeps (m : M ReturnCode) : keeps m → frames m.
Proof. intros Hm s. right. apply Hm. Qed.

Lemma frames_bind {A} (m : M A) (k : A → M ReturnCode) :
  keeps m → (∀ a, frames (k a)) → frames (bind m k).
Proof.
  intros Hm Hk s. unfold bind. specialize (Hm s).
  destruct (m s) as [[a|e] s']; simpl in *; [|by right].
  destruct (Hk a s') as [?|Hc]; [by left|right]. by rewrite Hc.
Qed.

Lemma frames_store ic : frames (modify (set_cookies ic) ;; ret SUCCESS).
Proof. intros s. by left. Qed.

Ltac keeps_step :=
  first
    [ apply keeps_ret | apply keeps_lift | apply keeps_get | apply keeps_log
    | apply keeps_http | apply keeps_set_login_url
    | apply keeps_try
    | apply keeps_bind; [|intros ?]
    | match goal with
      | |- keeps (if ?b then _ else _) => destruct b
      | |- keeps (match ?r with Ok _ => _ | Raise _ => _ end) => destruct r
      end ].

Ltac frames_step :=
  first
    [ apply frames_store
    | apply frames_bind; [repeat keeps_step|intros ?]
    | match goal with
      | |- frames (if ?b then _ else _) => destruct b
      | |- frames (match ?r with Ok _ => _ | Raise _ => _ end) => destruct r
      end
    | apply frames_keeps; repeat keeps_step ].

Section LoginFrame.
Context `{Runtime}.

Lemma keeps_get_login_url : keeps get_login_url.
Proof. unfold get_login_url. repeat keeps_step. Qed.

Lemma frames_login_exchange : frames login_exchange.
Proof. unfold login_exchange, passwordReset. repeat frames_step. Qed.

Lemma frames_login force_login : frames (login force_login).
Proof.
  unfold login. apply frames_bind; [apply keeps_get|intros s0].
  destruct (negb force_login && _).
  - apply frames_keeps. repeat keeps_step.
  - apply frames_bind; [apply keeps_try, keeps_get_login_url|intros r].
    destruct r.
    + apply frames_login_exchange.
    + apply frames_keeps. repeat keeps_step.
Qed.

(** C6. With a stored cookie that is not empty and [force_login] false,
    [login] returns [LOGIN_SKIPED] after logging that it skips: no
    request is sent, no reply of the portal is consumed, and nothing of
    the object changes. *)
Theorem login_fast_path (s : state) :
  cookies s ≠ [] →
  login false s = (Ok LOGIN_SKIPED, add_log (Info_login_skipped (name s)) s)
  ∧ sent (login false s).2 = sent s
  ∧ portal (login false s).2 = portal s
  ∧ cookies (login false s).2 = cookies s
  ∧ login_url (login false s).2 = login_url s.
Proof.
  intros Hc.
  assert (login false s
          = (Ok LOGIN_SKIPED, add_log (Info_login_skipped (name s)) s))
    as Hl.
  { unfold login. run_M. by rewrite bool_decide_false. }
  rewrite Hl. done.
Qed.

(** C9. Whatever [login] is called with and whatever the portal
    replies, the stored cookie differs afterwards only if [login]
    returned [SUCCESS]; after [LOGIN_SKIPED], after
    [GET_LOGIN_URL_FAILED] and after an exception it is the cookie
    stored before. *)
Theorem login_cookie_frame (force_login : bool) (s : state) :
  (cookies (login force_login s).2 ≠ cookies s →
   (login force_login s).1 = Ok SUCCESS)
  ∧ ((login force_login s).1 = Ok LOGIN_SKIPED
     ∨ (login force_login s).1 = Ok GET_LOGIN_URL_FAILED
     ∨ (∃ e, (login force_login s).1 = Raise e) →
     cookies (login force_login s).2 = cookies s).
Proof.
  destruct (frames_login force_login s) as [Hs|Hc].
  - split; [done|]. rewrite Hs. intros [?|[?|[e ?]]]; done.
  - split; [|done]. intros Hne. by destruct Hne.
Qed.
End LoginFrame.

Lemma login_fast_path_witness :
  @login ascii_runtime false (alice uuid_a full_login)
  = (Ok LOGIN_SKIPED,
     add_log (Info_login_skipped (py "alice")) (alice uuid_a full_login)).
Proof.
  apply (@login_fast_path ascii_runtime (alice uuid_a full_login)). done.
Defined.

Lemma login_cookie_frame_witness :
  cookies (@login ascii_runtime true (alice uuid_b login_without_lt)).2
  = cookies (alice uuid_b login_without_lt).
Proof.
  refine (proj2 (@login_cookie_frame ascii_runtime true
                   (alice uuid_b login_without_lt)) _).
  right. right. exists IndexError. vm_compute. reflexivity.
Defined.

(** A login that goes through does replace the stored cookie. *)
Example full_login_succeeds :
  (@login ascii_runtime true (alice uuid_b full_login)).1 = Ok SUCCESS
  ∧ cookies (@login ascii_runtime true (alice uuid_b full_login)).2 = uuid_a.
Proof. split; vm_compute; reflexivity. Qed.

(** ** What [login] returns *)

Lemma yields_ret {A} (P : A → Prop) (a : A) : P a → yields P (ret a).
Proof. intros Ha s b [= <-]. done. Qed.

Lemma yields_bind {A B} (P : B → Prop) (m : M A) (k : A → M B) :
  (∀ a, yields P (k a)) → yields P (bind m k).
Proof.
  intros Hk s b. unfold bind.
  destruct (m s) as [[a|e] s']; simpl; [apply Hk|done].
Qed.

Ltac yields_step :=
  first
    [ apply yields_ret; done
    | apply yields_bind; intros ?
    | match goal with
      | |- yields _ (if ?b then _ else _) => destruct b
      | |- yields _ (match ?r with Ok _ => _ | Raise _ => _ end) => destruct r
      end ].

Section LoginOutcome.
Context `{Runtime}.

(** The exchange returns [SUCCESS] when it returns. *)
Lemma yields_login_exchange : yields (λ rc, rc = SUCCESS) login_exchange.
Proof. unfold login_exchange. repeat yields_step. Qed.

Lemma yields_login force_login :
  yields (λ rc, rc = LOGIN_SKIPED ∨ rc = GET_LOGIN_URL_FAILED ∨ rc = SUCCESS)
    (login force_login).
Proof.
  unfold login. apply yields_bind. intros s0.
  destruct (negb force_login && _).
  - repeat yields_step. apply yields_ret. by left.
  - apply yields_bind. intros [[]|e].
    + intros s a Ha. right. right. by eapply yields_login_exchange.
    + repeat yields_step. apply yields_ret. right. by left.
Qed.
End LoginOutcome.

Section LoginFaults.
Context `{Runtime}.

Lemma findall_0_Ok m t g :
  findall_0 m t = Ok g → bool_decide (is_Some (search m t)) = true.
Proof.
  unfold findall_0. destruct (search m t); [|done].
  intros _. apply bool_decide_eq_true. by eexists.
Qed.

Lemma index0_Ok {A} (l : list A) a :
  index0 l = Ok a → negb (bool_decide (l = [])) = true.
Proof. by destruct l. Qed.

Lemma ticket_found (location : option str) g :
  findall_0 (match_tail (py "ticket=")) (py_str location) = Ok g →
  has_tail (py "ticket=") location = true.
Proof.
  destruct location as [t|]; [apply findall_0_Ok|].
  vm_compute. discriminate.
Qed.

(** When the exchange returns, every value it needs was there. *)
Lemma login_exchange_Ok (s : state) (url : str)
    (form posted redirected token : response)
    (rest : list (result response)) (rc : ReturnCode) :
  login_url s = Some url →
  portal s = Ok form :: Ok posted :: Ok redirected :: Ok token :: rest →
  (login_exchange s).1 = Ok rc →
  values_present url form posted redirected token = true.
Proof.
  intros Hurl Hp. unfold login_exchange. run_M.
  rewrite Hurl, Hp. cbn [url_arg portal set_portal].
  unfold values_present, has_form_value, etree_HTML.
  destruct (html_inputs form) as [doc|]; [|done].
  destruct (index0 (xpath_value attr_id (py "lt") doc)) as [lt|] eqn:Hlt;
    [|done].
  rewrite (index0_Ok _ _ Hlt).
  destruct (index0 (xpath_value attr_name (py "execution") doc))
    as [execution|] eqn:Hex; [|done].
  rewrite (index0_Ok _ _ Hex).
  destruct (RSA_strEnc _) as [rsa|]; [|done].
  cbn [portal set_portal].
  assert (∀ (b : bool) (s0 : state),
            (if b then passwordReset else λ s1 : state, (Ok (), s1)) s0
            = (Ok (), s0)) as -> by (by intros []).
  destruct (findall_0 (match_tail (py "ticket=")) _) as [ticket|] eqn:Ht;
    [|done].
  rewrite (ticket_found _ _ Ht).
  destruct (findall_0 (match_tail (py "service=")) url) as [service|] eqn:Hs;
    [|done].
  unfold has_tail at 1. rewrite (findall_0_Ok _ _ _ Hs).
  cbn [portal set_portal].
  destruct (assoc (py "Location") (headers redirected)) as [location|];
    [|done].
  cbn [text_arg fmap option_fmap option_map has_tail has_lazy].
  destruct (findall_0 (match_tail (py "uniToken=")) _) as [unitoken|] eqn:Hu;
    [|done].
  rewrite (findall_0_Ok _ _ _ Hu).
  destruct (findall_0 (match_lazy (py "uuid=") 38) _) as [uuid|] eqn:Hi;
    [|done].
  rewrite (findall_0_Ok _ _ _ Hi).
  cbn [portal set_portal].
  destruct (assoc (py "Set-Cookie") (headers token)) as [icc|]; [|done].
  cbn [text_arg].
  destruct (findall_0 (match_lazy (py "ic-cookie=") 59) icc) as [ic|] eqn:Hc;
    [|done].
  cbn [has_lazy]. by rewrite (findall_0_Ok _ _ _ Hc).
Qed.

End LoginFaults.



(** ** The loop of [main] *)

Lemma stops_only_at_end_last (cs : list call) :
  stops_only_at_end cs = true →
  ∀ i c, cs !! i = Some c → stops c = true → S i = length cs.
Proof.
  induction cs as [|c0 cs IH]; intros Hs i c Hi Hc; [done|].
  simpl in Hs. apply andb_prop in Hs as [H0 Hs].
  destruct i as [|i]; simpl in Hi.
  - injection Hi as ->. rewrite Hc in H0. simpl in H0.
    apply bool_decide_eq_true in H0 as ->. done.
  - simpl. f_equal. by eapply IH.
Qed.

Section WorkflowProofs.
Variable yy_login : bool → M ReturnCode.
Variable yy_sign_for_ahead_reservation : M ReturnCode.
Variable yy_pushplus : str → str + exn → M unit.

#[local] Abbreviation do_attempts :=
  (attempts yy_login yy_sign_for_ahead_reservation yy_pushplus).
#[local] Abbreviation do_sign_step :=
  (sign_step yy_sign_for_ahead_reservation).
#[local] Abbreviation do_sign_student :=
  (sign_student yy_login yy_sign_for_ahead_reservation yy_pushplus).

Lemma bounded_leave n retc ext dirty s : bounded n (leave retc ext dirty s).
Proof. repeat split; simpl; lia. Qed.

Lemma sign_step_calls n again ext dirty s :
  (∀ retc ext dirty s, bounded n (again retc ext dirty s)) →
  let r := do_sign_step again ext dirty s in
  (length (List.filter is_login (run_calls r)) ≤ n)%nat
  ∧ (length (List.filter is_sign (run_calls r)) ≤ S n)%nat
  ∧ stops_only_at_end (run_calls r) = true.
Proof.
  intros Hagain. unfold sign_step.
  destruct (yy_sign_for_ahead_reservation s) as [[retc|e] s1].
  - destruct (_ || _) eqn:Hb.
    + cbn. repeat split; try lia.
      all: destruct retc; simpl in *; done.
    + destruct (Hagain retc ext dirty s1) as (Hl & Hs & He).
      cbn. repeat split; try lia. rewrite He, andb_true_r.
      destruct retc; simpl in *; done.
  - cbn. repeat split; lia.
Qed.

Lemma bounded_after_login n force_login rc (r : run) :
  (length (List.filter is_login (run_calls r)) ≤ n)%nat →
  (length (List.filter is_sign (run_calls r)) ≤ S n)%nat →
  stops_only_at_end (run_calls r) = true →
  (rc = GET_LOGIN_URL_FAILED → run_calls r = []) →
  bounded (S n) (after_call (Call_login force_login (Ok rc)) r).
Proof.
  intros Hl Hs He Hcut. unfold bounded.
  change (run_calls (after_call ?c r)) with (c :: run_calls r).
  cbn [List.filter is_login is_sign stops_only_at_end length].
  rewrite He, andb_true_r. split; [lia|]. split; [lia|].
  destruct (decide (rc = GET_LOGIN_URL_FAILED)) as [Heq|Hne].
  - rewrite (Hcut Heq). apply orb_true_r.
  - by destruct rc.
Qed.

Lemma attempts_calls n stu retc ext dirty s :
  bounded n (do_attempts n stu retc ext dirty s).
Proof.
  revert retc ext dirty s. induction n as [|n IH]; intros retc ext dirty s.
  - apply bounded_leave.
  - cbn [attempts].
    destruct (yy_login _ s) as [[rc|e] s1].
    + destruct (bool_decide (rc = SUCCESS)) eqn:Hsucc.
      * destruct (sign_step_calls n (do_attempts n stu)
                    (<[stu_name stu := cookies s1]> ext) true s1 (IH))
          as (Hl & Hs & He).
        apply bool_decide_eq_true in Hsucc as ->.
        by apply bounded_after_login.
      * destruct (bool_decide (rc = GET_LOGIN_URL_FAILED)) eqn:Hurl.
        -- destruct (bool_decide (stu_pushplus stu = []));
             [apply bounded_after_login; simpl; (lia || done)|].
           destruct (yy_pushplus _ _ s1) as [[[]|e] s2];
             apply bounded_after_login; simpl; (lia || done).
        -- destruct (sign_step_calls n (do_attempts n stu) ext dirty s1 (IH))
             as (Hl & Hs & He).
           apply bounded_after_login; try done.
           intros ->. by rewrite bool_decide_eq_true_2 in Hurl.
    + unfold bounded. cbn. repeat split; lia.
Qed.

Lemma sign_student_calls stu ext dirty w :
  ∃ retc ext0 dirty0 yy,
    run_calls (do_sign_student stu ext dirty w)
    = run_calls (do_attempts 2 stu retc ext0 dirty0 yy).
Proof.
  unfold sign_student.
  set (cookie := match stu_cookie stu with Some c => c | None => _ end).
  exists SUCCESS, ext, dirty, (ZWYT_new stu cookie w).
  destruct (run_retc _) as [|e]; [done|].
  destruct (bool_decide (stu_pushplus stu = [])); [done|].
  by destruct (yy_pushplus _ _ _) as [[|] ?].
Qed.

(** C3. Whatever the login, the sign-in and the notification do and
    return, the loop over one entry calls [login] at most twice and
    [sign_for_ahead_reservation] at most twice, and a call of [login]
    that returns [GET_LOGIN_URL_FAILED], or of the sign-in that returns
    [SUCCESS], [ALREADY_SIGNED] or [NO_RESERVATION], is the last call
    made. *)
Theorem loop_is_bounded (stu : student) (external_cookies : gmap str str)
    (cookie_dirty : bool) (w : state) :
  let calls :=
    run_calls (do_sign_student stu external_cookies cookie_dirty w) in
  (length (List.filter is_login calls) ≤ 2)%nat
  ∧ (length (List.filter is_sign calls) ≤ 2)%nat
  ∧ ∀ i c, calls !! i = Some c → stops c = true → S i = length calls.
Proof.
  intros calls. subst calls.
  destruct (sign_student_calls stu external_cookies cookie_dirty w)
    as (retc & ext0 & dirty0 & yy & ->).
  destruct (attempts_calls 2 stu retc ext0 dirty0 yy) as (Hl & Hs & He).
  split; [done|]. split; [done|]. by apply stops_only_at_end_last.
Qed.
End WorkflowProofs.

(** ** The retries of [sign] *)

Lemma seat_logins_app (a b : list request) :
  seat_logins (a ++ b) = (seat_logins a + seat_logins b)%nat.
Proof. unfold seat_logins. by rewrite List.filter_app, length_app. Qed.

Ltac count_seat_logins :=
  cbn [fst snd sent set_portal add_log];
  rewrite ?seat_logins_app; cbn [seat_logins List.filter is_seat_login length];
  lia.

Ltac list_seat_logins :=
  cbn [fst snd sent set_portal add_log];
  rewrite ?List.filter_app; cbn [List.filter is_seat_login];
  rewrite ?app_nil_r; reflexivity.

Section SignRetries.
Context `{Runtime}.

(** The call of [sign] that gets a reply with [data]: one device-login
    request, for the seat it was called with, and no other. *)
Lemma sign_within_data (depth : nat) (devName : str) (s : state)
    (final : response) (rest : list (result response)) v :
  carries_data final →
  portal s = Ok final :: rest →
  seat_lookup (json_dir s) devName (py "sign") = Ok v →
  List.filter is_seat_login (sent (sign_within (S depth) devName s).2)
  = List.filter is_seat_login (sent s) ++ [Post_seat_login v (cookies s)].
Proof.
  intros (body & data & Hj & Hd & Hn) Hp Hv.
  cbn [sign_within]. unfold get_seat_resvDev_devSn. run_M.
  rewrite Hv, Hp. unfold res_json. rewrite Hj, Hd, Hn.
  cbn [portal set_portal].
  destruct (py_get data (py "reserveInfo")) as [info|]; [|list_seat_logins].
  destruct (is_None info); [list_seat_logins|].
  destruct (py_get info (py "resvId")) as [resvId|]; [|list_seat_logins].
  cbn [portal set_portal].
  destruct rest as [|[res2|e] rest]; [list_seat_logins| |list_seat_logins].
  destruct (json_body res2) as [body2|]; [|list_seat_logins].
  destruct (py_get body2 (py "message")) as [message|]; [|list_seat_logins].
  destruct (json_eq_str message (py "操作成功")); [list_seat_logins|].
  destruct (json_eq_str message _); list_seat_logins.
Qed.

(** The call of [sign] that gets a reply without [data]: one
    device-login request, and the call of [sign] for the seat named. *)
Lemma sign_within_redirect (depth : nat) (devName label : str) (s : state)
    (res : response) (rest : list (result response)) v :
  redirects_to res label →
  portal s = Ok res :: rest →
  seat_lookup (json_dir s) devName (py "sign") = Ok v →
  ∃ s',
    sign_within (S depth) devName s = sign_within depth label s'
    ∧ portal s' = rest
    ∧ json_dir s' = json_dir s
    ∧ cookies s' = cookies s
    ∧ sent s' = sent s ++ [Post_seat_login v (cookies s)].
Proof.
  intros (body & m & Hj & Hd & Hm & Hl) Hp Hv.
  cbn [sign_within]. unfold get_seat_resvDev_devSn. run_M.
  rewrite Hv, Hp. unfold res_json. rewrite Hj, Hd. cbn [is_None].
  rewrite Hm. cbn [as_text]. rewrite Hl.
  eexists. split; [reflexivity|]. done.
Qed.

(** The device-login requests of a call of [sign] that is redirected:
    one for the seat it was called with, then one for each seat named, in
    the order of the replies. *)
Lemma sign_within_retries (replies : list response) (labels : list str) :
  Forall2 redirects_to replies labels →
  ∀ (depth : nat) (devName : str) (s : state) (final : response)
    (rest : list (result response)) (devSns : list json),
    carries_data final →
    portal s = (Ok <$> replies) ++ Ok final :: rest →
    Forall2 (λ n v, seat_lookup (json_dir s) n (py "sign") = Ok v)
      (devName :: labels) devSns →
    (length replies < depth)%nat →
    List.filter is_seat_login (sent (sign_within depth devName s).2)
    = List.filter is_seat_login (sent s)
      ++ map (λ v, Post_seat_login v (cookies s)) devSns.
Proof.
  induction 1 as [|res label replies labels Hr _ IH];
    intros depth devName s final rest devSns Hf Hp Hseats Hd.
  - destruct depth as [|depth]; [simpl in Hd; lia|].
    apply Forall2_cons_inv_l in Hseats as (v & vs & Hv & Hvs & ->).
    apply Forall2_nil_inv_l in Hvs as ->.
    exact (sign_within_data depth devName s final rest v Hf Hp Hv).
  - destruct depth as [|depth]; [simpl in Hd; lia|].
    apply Forall2_cons_inv_l in Hseats as (v & vs & Hv & Hvs & ->).
    destruct (sign_within_redirect depth devName label s res _ v Hr Hp Hv)
      as (s' & -> & Hp' & Hj' & Hc' & Hs').
    rewrite (IH depth label s' final rest vs Hf Hp').
    + rewrite Hs', Hc', List.filter_app. cbn [List.filter is_seat_login map].
      by rewrite <- app_assoc.
    + by rewrite Hj'.
    + simpl in Hd. lia.
Qed.

Lemma sign_within_exhausted (replies : list response) (labels : list str) :
  Forall2 redirects_to replies labels →
  ∀ (depth : nat) (devName : str) (s : state)
    (rest : list (result response)),
    portal s = (Ok <$> replies) ++ rest →
    Forall (λ n, ∃ v, seat_lookup (json_dir s) n (py "sign") = Ok v)
      (devName :: labels) →
    (depth ≤ length replies)%nat →
    (sign_within depth devName s).1 = Raise RecursionError.
Proof.
  induction 1 as [|res label replies labels Hr _ IH];
    intros depth devName s rest Hp Hseats Hd.
  - destruct depth as [|depth]; [done|simpl in Hd; lia].
  - destruct depth as [|depth]; [done|].
    apply Forall_cons in Hseats as [[v Hv] Hseats].
    destruct (sign_within_redirect depth devName label s res _ v Hr Hp Hv)
      as (s' & -> & Hp' & Hj' & Hc' & Hs').
    apply (IH depth label s' rest Hp').
    + by rewrite Hj'.
    + simpl in Hd. lia.
Qed.

(** C2, as amended. The portal answers the device-logins of a call of
    [sign] with [k] replies without [data] whose messages each name a
    seat, then with a reply that carries [data], and the seat tables give
    a [devSn] for the seat of the call and for every seat named. If [k]
    nested calls are still allowed, the device-login requests that [sign]
    sends are one for the seat of the call and then one for each seat
    named, each for the [devSn] of the label taken from the message
    before it, in the order of the replies: [1 + k] device-logins, so [k]
    retries, exactly one when [k = 1], and [k] whatever [k] is. If they
    are not, [sign] raises [RecursionError]. *)
Theorem sign_retries (devName : str) (s : state) (replies : list response)
    (labels : list str) (devSns : list json) (final : response)
    (rest : list (result response)) :
  Forall2 redirects_to replies labels →
  carries_data final →
  portal s = (Ok <$> replies) ++ Ok final :: rest →
  Forall2 (λ n v, seat_lookup (json_dir s) n (py "sign") = Ok v)
    (devName :: labels) devSns →
  ((length replies < recursion_limit)%nat →
   List.filter is_seat_login (sent (sign devName s).2)
   = List.filter is_seat_login (sent s)
     ++ map (λ v, Post_seat_login v (cookies s)) devSns
   ∧ seat_logins (sent (sign devName s).2)
     = (seat_logins (sent s) + 1 + length replies)%nat)
  ∧ ((recursion_limit ≤ length replies)%nat →
     (sign devName s).1 = Raise RecursionError).
Proof.
  intros Hr Hf Hp Hseats. unfold sign. split; intros Hd.
  - pose proof (sign_within_retries replies labels Hr recursion_limit
                  devName s final rest devSns Hf Hp Hseats Hd) as Hsent.
    split; [exact Hsent|].
    unfold seat_logins. rewrite Hsent, length_app, length_map.
    apply Forall2_length in Hseats. apply Forall2_length in Hr.
    cbn [length] in Hseats. lia.
  - eapply sign_within_exhausted; [exact Hr|exact Hp| |exact Hd].
    clear -Hseats. induction Hseats; constructor; eauto.
Qed.
End SignRetries.

Lemma sign_retries_witness :
  List.filter is_seat_login
    (sent (@sign ascii_runtime (py "101-011") (alice uuid_a one_redirect)).2)
  = List.filter is_seat_login (sent (alice uuid_a one_redirect))
    ++ map (λ v, Post_seat_login v (cookies (alice uuid_a one_redirect)))
         [JInt 11; JInt 12].
Proof.
  refine (proj1 (proj1 (@sign_retries ascii_runtime (py "101-011")
                          (alice uuid_a one_redirect)
                          [redirect_reply (py "101-012")] [py "101-012"]
                          [JInt 11; JInt 12]
                          no_reservation_reply [] _ _ _ _) _)).
  - repeat constructor. eexists _, _. repeat split; vm_compute; reflexivity.
  - eexists _, _. repeat split; vm_compute; reflexivity.
  - reflexivity.
  - repeat constructor; vm_compute; reflexivity.
  - simpl. lia.
Defined.

(** C2, as stated, fails: the portal names another seat twice in a row, and
    one call of [sign] retries twice (three device-logins) before it
    returns. *)
Lemma two_redirects_two_retries :
  redirects_to (redirect_reply (py "101-012")) (py "101-012")
  ∧ redirects_to (redirect_reply (py "101-013")) (py "101-013")
  ∧ (@sign ascii_runtime (py "101-011") (alice uuid_a two_redirects)).1
    = Ok NO_RESERVATION
  ∧ sent (@sign ascii_runtime (py "101-011") (alice uuid_a two_redirects)).2
    = [Post_seat_login (JInt 11) uuid_a; Post_seat_login (JInt 12) uuid_a;
       Post_seat_login (JInt 13) uuid_a]
  ∧ ¬ (seat_logins
         (sent (@sign ascii_runtime (py "101-011")
                  (alice uuid_a two_redirects)).2) - 1 ≤ 1)%nat.
Proof.
  split; [|split; [|split; [|split]]].
  - eexists _, _. repeat split; vm_compute; reflexivity.
  - eexists _, _. repeat split; vm_compute; reflexivity.
  - vm_compute. reflexivity.
  - vm_compute. reflexivity.
  - vm_compute. lia.
Qed.

(** The loop with the methods of [ZWYT], on a cached cookie that the
    portal rejects: the login is skipped, the query reports the expiry, the
    login is forced, and the second sign-in goes through. *)
Example expired_cookie_run :
  let r :=
    sign_student (@login ascii_runtime)
      (@sign_for_ahead_reservation ascii_runtime) pushplus stu_alice
      {[ py "alice" := uuid_b ]} false (alice [] expired_then_signed) in
  run_calls r
  = [Call_login false (Ok LOGIN_SKIPED); Call_sign (Ok COOKIE_EXPIRED);
     Call_login true (Ok SUCCESS); Call_sign (Ok SUCCESS)]
  ∧ run_retc r = Ok SUCCESS
  ∧ run_cookies r !! py "alice" = Some uuid_a
  ∧ run_dirty r = true
  ∧ portal (run_state r) = [].
Proof. vm_compute. done. Qed.

(** * Further properties of the code *)

(** ** Reading the cookie cache *)

Lemma dropwhile_nil p (s : str) : dropwhile p s = [] → forallb p s = true.
Proof.
  induction s as [|c s IH]; simpl; [done|].
  destruct (p c); [done|]. discriminate.
Qed.

Lemma dropwhile_head p (s : str) c t : dropwhile p s = c :: t → p c = false.
Proof.
  induction s as [|d s IH]; simpl; [done|].
  destruct (p d) eqn:Hd; [done|]. by intros [= -> _].
Qed.

Lemma takewhile_forallb p (s : str) : forallb p (takewhile p s) = true.
Proof.
  induction s as [|c s IH]; simpl; [done|].
  destruct (p c) eqn:Hc; [|done]. simpl. by rewrite Hc.
Qed.

Lemma split_None_1_nil s :
  split_None_1 s = [] ↔ forallb isspace s = true.
Proof.
  unfold split_None_1. split.
  - destruct (dropwhile isspace s) as [|c t] eqn:Hd.
    + intros _. by apply dropwhile_nil.
    + by destruct (dropwhile isspace (dropwhile _ (c :: t))).
  - intros Hs. by rewrite dropwhile_all.
Qed.

Lemma strip_head s c t : strip s = c :: t → isspace c = false.
Proof.
  unfold strip. destruct (lstrip s) as [|d u] eqn:Hl; [done|].
  apply dropwhile_head in Hl. rewrite rstrip_cons, Hl.
  destruct (rstrip u); by intros [= <- _].
Qed.

Lemma strip_fields_nil line :
  split_None_1 (strip line) = [] ↔ blank line = true.
Proof.
  rewrite split_None_1_nil. unfold blank. split.
  - intros Hs. destruct (strip line) as [|c t] eqn:Hst.
    + unfold strip in Hst. destruct (lstrip line) as [|d u] eqn:Hl.
      * by apply dropwhile_nil.
      * apply dropwhile_head in Hl. rewrite rstrip_cons in Hst.
        destruct (rstrip u); [|done]. by rewrite Hl in Hst.
    + apply strip_head in Hst. simpl in Hs. by rewrite Hst in Hs.
  - intros Hb. by rewrite strip_blank.
Qed.

(** The first of two fields is a name that the file format keeps. *)
Lemma split_None_1_name s n v : split_None_1 s = [n; v] → name_ok n = true.
Proof.
  unfold split_None_1.
  destruct (dropwhile isspace s) as [|c t] eqn:Hd; [done|].
  apply dropwhile_head in Hd.
  destruct (dropwhile isspace (dropwhile _ (c :: t))); [done|].
  intros [= <- _]. unfold name_ok.
  apply andb_true_intro. split.
  - simpl. by rewrite Hd.
  - apply (takewhile_forallb (λ c, negb (isspace c)) (c :: t)).
Qed.

Section CacheReading.
Context `{Runtime}.
#[local] Arguments fullmatch : simpl never.

(** After a line that is not blank the loop goes on, with some dict. *)
Lemma load_lines_step line rest m :
  blank line = false →
  ∃ m', (load_lines (line :: rest) m).2 = (load_lines rest m').2.
Proof.
  intros Hb. cbn [load_lines].
  destruct (split_None_1 (strip line)) as [|n [|v [|x l]]] eqn:Hf.
  - apply strip_fields_nil in Hf. by rewrite Hf in Hb.
  - by exists m.
  - destruct (fullmatch uuid_pattern v); simpl; by eexists.
  - by exists m.
Qed.

(** The loop raises exactly at a blank line. *)
Lemma load_lines_raises_iff_blank (lines : list str) (m : gmap str str) :
  ((load_lines lines m).2 = Raise IndexError
   ↔ Exists (λ l, blank l = true) lines)
  ∧ ((∃ d, (load_lines lines m).2 = Ok d)
     ↔ Forall (λ l, blank l = false) lines).
Proof.
  revert m. induction lines as [|line rest IH]; intros m.
  - split; split; simpl; try done.
    + by intros ?%Exists_nil.
    + intros _. by eexists.
  - destruct (blank line) eqn:Hb.
    + rewrite (load_lines_blank line rest m Hb). simpl. split; split.
      * intros _. by left.
      * done.
      * by intros [d ?].
      * intros [Hl _]%Forall_cons. by rewrite Hb in Hl.
    + destruct (load_lines_step line rest m Hb) as [m' ->].
      destruct (IH m') as [IH1 IH2]. split.
      * rewrite IH1, Exists_cons, Hb. split; [by right|by intros [?|?]].
      * rewrite IH2, Forall_cons, Hb. split; [done|by intros [_ ?]].
Qed.

(** The loop raises nothing but the [IndexError] of [line[0]]. *)
Lemma load_lines_raises (lines : list str) (m : gmap str str) (e : exn) :
  (load_lines lines m).2 = Raise e → e = IndexError.
Proof.
  revert m. induction lines as [|line rest IH]; intros m; [done|].
  destruct (blank line) eqn:Hb.
  - rewrite (load_lines_blank line rest m Hb). by intros [= <-].
  - destruct (load_lines_step line rest m Hb) as [m' ->]. apply IH.
Qed.

(** X1. For a path that names a file, [load_cookie_cache] raises exactly
    when a line of the file is empty or of whitespace only, and the
    exception is then [IndexError]; it returns a dict exactly when no line
    is blank. *)
Theorem load_raises_iff_blank (fs : gmap str node) (path content : str) :
  fs !! path = Some (File content) →
  ((load_cookie_cache fs path).2 = Raise IndexError
   ↔ Exists (λ l, blank l = true) (readlines (universal_newlines content)))
  ∧ ((∃ d, (load_cookie_cache fs path).2 = Ok d)
     ↔ Forall (λ l, blank l = false)
         (readlines (universal_newlines content)))
  ∧ (∀ e, (load_cookie_cache fs path).2 = Raise e → e = IndexError).
Proof.
  intros Hfile. unfold load_cookie_cache, Path_exists, open_read.
  rewrite Hfile.
  destruct (load_lines_raises_iff_blank
              (readlines (universal_newlines content)) ∅) as [Hr Hk].
  split; [exact Hr|]. split; [exact Hk|].
  intros e. apply load_lines_raises.
Qed.

Lemma load_lines_entries (lines : list str) (m d : gmap str str) :
  (load_lines lines m).2 = Ok d →
  ∀ n t, d !! n = Some t →
    m !! n = Some t ∨ (name_ok n = true ∧ fullmatch uuid_pattern t = true).
Proof.
  revert m. induction lines as [|line rest IH]; intros m.
  - simpl. intros [= ->] n t Hn. by left.
  - cbn [load_lines].
    destruct (split_None_1 (strip line)) as [|n0 [|v [|x l]]] eqn:Hf;
      [done|apply IH| |apply IH].
    destruct (fullmatch uuid_pattern v) eqn:Hv; simpl; [|apply IH].
    intros Hd n t Hn. destruct (IH _ Hd n t Hn) as [Hm|]; [|by right].
    destruct (decide (n0 = n)) as [<-|Hne].
    + rewrite lookup_insert_eq in Hm. injection Hm as <-. right.
      split; [|done]. by eapply split_None_1_name.
    + rewrite lookup_insert_ne in Hm by done. by left.
Qed.

(** X2. Whatever the file holds, every entry of the dict that
    [load_cookie_cache] returns has a name that is not empty and free of
    whitespace, and a cookie that matches the UUID pattern. *)
Theorem load_cookie_cache_entries (fs : gmap str node) (path : str)
    (d : gmap str str) :
  (load_cookie_cache fs path).2 = Ok d →
  map_Forall (λ n t, name_ok n = true ∧ fullmatch uuid_pattern t = true) d.
Proof.
  unfold load_cookie_cache, Path_exists, open_read. intros Hd n t Hn.
  destruct (fs !! path) as [[content|]|]; cbn [snd] in Hd.
  - destruct (load_lines_entries _ _ _ Hd n t Hn) as [Hm|]; [|done].
    by rewrite lookup_empty in Hm.
  - done.
  - destruct (bool_decide (path = [])); [done|].
    destruct (name_too_long path); [done|].
    injection Hd as <-. by rewrite lookup_empty in Hn.
Qed.

(** Reading goes line by line: the lines after a point are read into the
    dict the lines before it gave. *)
Lemma load_lines_app (a b : list str) (m : gmap str str) :
  (load_lines (a ++ b) m).2 =
  match (load_lines a m).2 with
  | Ok m' => (load_lines b m').2
  | Raise e => Raise e
  end.
Proof.
  revert m. induction a as [|line a IH]; intros m; [done|].
  cbn [app load_lines].
  destruct (split_None_1 (strip line)) as [|n [|v [|x l]]]; try done;
    try apply IH.
  destruct (fullmatch uuid_pattern v); simpl; apply IH.
Qed.

(** X3. A later line replaces what earlier lines stored for its name:
    after any lines that are read without exception, a line [name cookie]
    with a name the format keeps and a UUID leaves [name] mapped to that
    cookie and every other name as it was. *)
Theorem load_later_line_wins (lines : list str) (m d : gmap str str)
    (name cookie : str) :
  name_ok name = true →
  fullmatch uuid_pattern cookie = true →
  (load_lines lines m).2 = Ok d →
  (load_lines (lines ++ [cache_line (name, cookie)]) m).2
  = Ok (<[name := cookie]> d).
Proof.
  intros Hn Hc Hd. rewrite load_lines_app, Hd. cbn [load_lines].
  rewrite parse_cache_line by done.
  rewrite strip_no_space by (by eapply fullmatch_no_space).
  destruct cookie as [|c cookie]; [done|]. by rewrite Hc.
Qed.
End CacheReading.

Lemma load_raises_iff_blank_witness :
  (@load_cookie_cache ascii_runtime {[cache_path := File blank_line_file]}
     cache_path).2
  = Raise IndexError
  ↔ Exists (λ l, blank l = true)
      (readlines (universal_newlines blank_line_file)).
Proof.
  refine (proj1 (@load_raises_iff_blank ascii_runtime
                   {[cache_path := File blank_line_file]} cache_path
                   blank_line_file _)).
  vm_compute. reflexivity.
Defined.

Lemma load_cookie_cache_entries_witness :
  map_Forall
    (λ n t, name_ok n = true
            ∧ @fullmatch ascii_runtime uuid_pattern t = true)
    ({[ py "alice" := uuid_a; py "dave" := uuid_b ]} : gmap str str).
Proof.
  apply (@load_cookie_cache_entries ascii_runtime
           {[cache_path := File untidy_cache_file]} cache_path).
  vm_compute. reflexivity.
Defined.

Lemma load_later_line_wins_witness :
  (@load_lines ascii_runtime
     ([py "alice " ++ uuid_a ++ [10]] ++ [cache_line (py "alice", uuid_b)])
     ∅).2
  = Ok (<[py "alice" := uuid_b]> {[ py "alice" := uuid_a ]}).
Proof.
  apply (@load_later_line_wins ascii_runtime); vm_compute; reflexivity.
Defined.

(** ** The seat tables *)

Section SeatTables.
Context `{Runtime}.


Lemma tag_sign_is_not_reserve : str_eqb (py "sign") (py "reserve") = false.
Proof. vm_compute. reflexivity. Qed.

Lemma tag_sign_is_sign : str_eqb (py "sign") (py "sign") = true.
Proof. vm_compute. reflexivity. Qed.

(** The loop over the seats keeps the serial of the last seat taken. *)
Lemma scan_seats_sign (items : list json) (devName : str) (resvDev : json) :
  forallb is_dict items = true →
  scan_seats items devName (py "sign") resvDev
  = Ok (match last (List.filter (seat_matches devName) items) with
        | Some i => match py_get i (py "devSn") with
                    | Ok v => v
                    | Raise _ => JNull
                    end
        | None => resvDev
        end).
Proof.
  revert resvDev. induction items as [|i items IH]; intros resvDev; [done|].
  cbn [forallb]. intros [Hi Hitems]%andb_prop.
  destruct i as [| | | | |d]; try done.
  cbn [scan_seats List.filter py_get rbind].
  change (json_eq_str (default JNull (assoc (py "devName") d)) (upper devName)
          || json_eq_str (default JNull (assoc (py "devName") d))
               (lower devName))
    with (seat_matches devName (JDict d)).
  destruct (seat_matches devName (JDict d)).
  - rewrite tag_sign_is_not_reserve, tag_sign_is_sign. rewrite IH by done.
    rewrite last_cons. by destruct (last (List.filter _ items)).
  - by apply IH.
Qed.

(** X5. When the table of the prefix exists and lists seats under
    [data], looking a seat up for the sign-in raises nothing: it gives the
    [devSn] of the last seat of the table whose [devName] is the name in
    upper or in lower case, and [None] when the table has no such seat. *)
Theorem seat_lookup_last_match (dir : gmap str json) (devName : str)
    (c : N) (t : str) (table : list (str * json)) (items : list json) :
  split_first 45 (strip devName) = c :: t →
  c ≠ 77 →
  dir !! (py "json/" ++ lower (c :: t) ++ py ".json") = Some (JDict table) →
  assoc (py "data") table = Some (JList items) →
  forallb is_dict items = true →
  seat_lookup dir devName (py "sign")
  = Ok (match last (List.filter (seat_matches devName) items) with
        | Some i => match py_get i (py "devSn") with
                    | Ok v => v
                    | Raise _ => JNull
                    end
        | None => JNull
        end).
Proof.
  intros Hf Hc Hdir Hdata Hitems. unfold seat_lookup.
  rewrite Hf. cbn [index0 rbind]. rewrite (proj2 (N.eqb_neq c 77) Hc).
  rewrite bool_decide_eq_true_2 by (rewrite Hdir; by eexists).
  rewrite Hdir. cbn [rbind py_get]. rewrite Hdata. cbn [default py_iter].
  by apply scan_seats_sign.
Qed.
End SeatTables.


Lemma seat_lookup_last_match_witness :
  @seat_lookup ascii_runtime seat_tables (py "101-999") (py "sign")
  = Ok JNull.
Proof.
  rewrite (@seat_lookup_last_match ascii_runtime seat_tables (py "101-999")
             49 (py "01")
             [(py "data", JList [seat (py "101-011") 11;
                                 seat (py "101-012") 12;
                                 seat (py "101-013") 13])]
             [seat (py "101-011") 11; seat (py "101-012") 12;
              seat (py "101-013") 13]);
    try (vm_compute; reflexivity).
  vm_compute. discriminate.
Defined.

(** ** The outcomes of [login] *)

Section LoginOutcomes.
Context `{Runtime}.

(** [login] past the test of the stored cookie. *)
Lemma login_unskipped (force_login : bool) (s : state) :
  negb force_login && negb (bool_decide (cookies s = [])) = false →
  login force_login s
  = match get_login_url s with
    | (Ok _, s1) => login_exchange s1
    | (Raise e, s1) =>
      (Ok GET_LOGIN_URL_FAILED, add_log (Error_login_url (name s) e) s1)
    end.
Proof.
  intros Hc. unfold login. run_M. rewrite Hc.
  by destruct (get_login_url s) as [[[]|e] s1].
Qed.

(** X6. [login] returns [LOGIN_SKIPED] exactly when it is not forced and
    the stored cookie is not empty: a forced login, and a login without a
    cookie, always go to the portal. *)
Theorem login_skipped_iff (force_login : bool) (s : state) :
  (login force_login s).1 = Ok LOGIN_SKIPED
  ↔ force_login = false ∧ cookies s ≠ [].
Proof.
  destruct (negb force_login && negb (bool_decide (cookies s = [])))
    eqn:Hc.
  - apply andb_prop in Hc as [Hf Hk]. split.
    + intros _. split; [by destruct force_login|].
      intros Hk'. by rewrite bool_decide_eq_true_2 in Hk.
    + intros _. unfold login. run_M. by rewrite Hf, Hk.
  - split.
    + rewrite login_unskipped by done.
      destruct (get_login_url s) as [[[]|e] s1]; [|done].
      intros Hs. discriminate (yields_login_exchange s1 _ Hs).
    + intros [-> Hk]. by rewrite bool_decide_eq_false_2 in Hc.
Qed.

(** What an exception of [get_login_url] leaves behind. *)
Lemma get_login_url_raises (s : state) (e : exn) :
  (get_login_url s).1 = Raise e →
  cookies (get_login_url s).2 = cookies s
  ∧ login_url (get_login_url s).2 = login_url s
  ∧ (length (sent (get_login_url s).2) ≤ length (sent s) + 2)%nat.
Proof.
  unfold get_login_url. run_M. unfold res_json.
  destruct (portal s) as [|[r1|e1] rest1]; cbn [fst snd];
    try (intros _; cbn; rewrite ?length_app; simpl; split_and!; (done || lia)).
  destruct (json_body r1) as [body|];
    try (intros _; cbn; rewrite ?length_app; simpl; split_and!; (done || lia)).
  destruct (py_get body (py "data")) as [address|];
    try (intros _; cbn; rewrite ?length_app; simpl; split_and!; (done || lia)).
  cbn [portal set_portal].
  destruct rest1 as [|[r2|e2] rest2]; cbn [fst snd]; try done;
    intros _; cbn; rewrite ?length_app; simpl; split_and!; (done || lia).
Qed.

(** X7. [login] returns [GET_LOGIN_URL_FAILED] exactly when it goes to the
    portal and [get_login_url] raises; the stored cookie and the login url
    are then what they were, and at most two requests were sent. *)
Theorem login_url_failed_iff (force_login : bool) (s : state) :
  ((login force_login s).1 = Ok GET_LOGIN_URL_FAILED
   ↔ negb force_login && negb (bool_decide (cookies s = [])) = false
     ∧ ∃ e, (get_login_url s).1 = Raise e)
  ∧ ((login force_login s).1 = Ok GET_LOGIN_URL_FAILED →
     cookies (login force_login s).2 = cookies s
     ∧ login_url (login force_login s).2 = login_url s
     ∧ (length (sent (login force_login s).2) ≤ length (sent s) + 2)%nat).
Proof.
  destruct (negb force_login && negb (bool_decide (cookies s = [])))
    eqn:Hc.
  - assert ((login force_login s).1 = Ok LOGIN_SKIPED) as Hs.
    { unfold login. run_M. by rewrite Hc. }
    rewrite Hs. split; [split|]; try done. by intros [? _].
  - rewrite login_unskipped by done.
    pose proof (get_login_url_raises s) as Hr.
    destruct (get_login_url s) as [[[]|e] s1]; cbn [fst snd] in *.
    + split; [split|].
      * intros Hs. discriminate (yields_login_exchange s1 _ Hs).
      * by intros [_ [e ?]].
      * intros Hs. discriminate (yields_login_exchange s1 _ Hs).
    + split; [split|].
      * intros _. split; [done|]. by exists e.
      * done.
      * intros _. by apply (Hr e).
Qed.

(** X8. When the reply to the second request of [get_login_url] has no
    [Location] header, [get_login_url] does not raise: it stores [None] as
    the login url, and [login] then raises [TypeError] before it sends a
    third request, instead of returning [GET_LOGIN_URL_FAILED]. *)
Theorem login_without_location (force_login : bool) (s : state)
    (r1 r2 : response) (rest : list (result response))
    (d : list (str * json)) :
  negb force_login && negb (bool_decide (cookies s = [])) = false →
  portal s = Ok r1 :: Ok r2 :: rest →
  json_body r1 = Some (JDict d) →
  assoc (py "Location") (headers r2) = None →
  (login force_login s).1 = Raise TypeError
  ∧ sent (login force_login s).2
    = sent s ++ [Get_findaddress;
                 Get_location (default JNull (assoc (py "data") d))]
  ∧ portal (login force_login s).2 = rest
  ∧ login_url (login force_login s).2 = None.
Proof.
  intros Hc Hp Hj Hl. rewrite login_unskipped by done.
  unfold get_login_url. run_M. rewrite Hp. unfold res_json. rewrite Hj.
  cbn [py_get portal set_portal]. rewrite Hl.
  unfold login_exchange. run_M. cbn. by rewrite <- app_assoc.
Qed.
End LoginOutcomes.

Lemma login_without_location_witness :
  (@login ascii_runtime true
     (alice uuid_b [Ok address_reply; Ok (json_reply JNull)])).1
  = Raise TypeError.
Proof.
  refine (proj1 (@login_without_location ascii_runtime true
                   (alice uuid_b [Ok address_reply; Ok (json_reply JNull)])
                   address_reply (json_reply JNull) [] _ _ _ _ _));
    reflexivity.
Defined.

Lemma login_url_failed_iff_witness :
  cookies (@login ascii_runtime true (alice uuid_b [])).2
  = cookies (alice uuid_b [])
  ∧ login_url (@login ascii_runtime true (alice uuid_b [])).2
    = login_url (alice uuid_b [])
  ∧ (length (sent (@login ascii_runtime true (alice uuid_b [])).2)
     ≤ length (sent (alice uuid_b [])) + 2)%nat.
Proof.
  refine (proj2 (@login_url_failed_iff ascii_runtime true (alice uuid_b []))
            _).
  vm_compute. reflexivity.
Defined.

Section LoginSuccess.
Context `{Runtime}.

(** A call of [get_login_url] that returns has sent two requests and
    consumed two replies. *)
Lemma get_login_url_Ok (s s1 : state) :
  get_login_url s = (Ok tt, s1) →
  ∃ (r1 r2 : response) (rest : list (result response)),
    portal s = Ok r1 :: Ok r2 :: rest
    ∧ portal s1 = rest
    ∧ (length (sent s1) = length (sent s) + 2)%nat.
Proof.
  unfold get_login_url. run_M. unfold res_json.
  destruct (portal s) as [|[r1|e1] rest1]; [done| |done].
  destruct (json_body r1) as [body|]; [|done].
  destruct (py_get body (py "data")) as [address|]; [|done].
  cbn [portal set_portal].
  destruct rest1 as [|[r2|e2] rest2]; [done| |done].
  intros [= <-]. exists r1, r2, rest2. split; [done|]. split; [done|].
  cbn. rewrite !length_app. simpl. lia.
Qed.

(** A call of the exchange that returns has sent four requests, consumed
    four replies, and stored the cookie of the fourth. *)
Lemma login_exchange_trace (s : state) (rc : ReturnCode) :
  (login_exchange s).1 = Ok rc →
  ∃ (r3 r4 r5 r6 : response) (rest : list (result response)) (icc : str),
    portal s = Ok r3 :: Ok r4 :: Ok r5 :: Ok r6 :: rest
    ∧ portal (login_exchange s).2 = rest
    ∧ (length (sent (login_exchange s).2) = length (sent s) + 4)%nat
    ∧ assoc (py "Set-Cookie") (headers r6) = Some icc
    ∧ findall_0 (match_lazy (py "ic-cookie=") 59) icc
      = Ok (cookies (login_exchange s).2).
Proof.
  unfold login_exchange. run_M. unfold etree_HTML.
  destruct (url_arg (login_url s)) as [url|]; [|done].
  destruct (portal s) as [|[r3|e3] p3]; [done| |done].
  destruct (html_inputs r3) as [doc|]; [|done].
  destruct (index0 (xpath_value attr_id (py "lt") doc)) as [lt|]; [|done].
  destruct (index0 (xpath_value attr_name (py "execution") doc))
    as [execution|]; [|done].
  destruct (RSA_strEnc _) as [rsa|]; [|done].
  cbn [portal set_portal].
  destruct p3 as [|[r4|e4] p4]; [done| |done].
  assert (∀ (b : bool) (s0 : state),
            (if b then passwordReset else λ s1 : state, (Ok (), s1)) s0
            = (Ok (), s0)) as -> by (by intros []).
  destruct (findall_0 (match_tail (py "ticket=")) _) as [ticket|]; [|done].
  destruct (findall_0 (match_tail (py "service=")) url) as [service|];
    [|done].
  cbn [portal set_portal].
  destruct p4 as [|[r5|e5] p5]; [done| |done].
  destruct (text_arg (assoc (py "Location") (headers r5))) as [location|];
    [|done].
  destruct (findall_0 (match_tail (py "uniToken=")) _) as [unitoken|];
    [|done].
  destruct (findall_0 (match_lazy (py "uuid=") 38) _) as [uuid|]; [|done].
  cbn [portal set_portal].
  destruct p5 as [|[r6|e6] p6]; [done| |done].
  destruct (assoc (py "Set-Cookie") (headers r6)) as [icc|] eqn:Hicc;
    [|done].
  cbn [text_arg].
  destruct (findall_0 (match_lazy (py "ic-cookie=") 59) icc) as [ic|] eqn:Hic;
    [|done].
  intros _. exists r3, r4, r5, r6, p6, icc.
  split; [done|]. split; [done|]. split; [|done].
  cbn. rewrite !length_app. simpl. lia.
Qed.

(** X9. A call of [login] that returns [SUCCESS] has sent exactly six
    requests and consumed exactly six replies of the portal, and the
    cookie it stored is the [ic-cookie] part of the [Set-Cookie] header of
    the sixth. *)
Theorem login_success_exchange (force_login : bool) (s : state) :
  (login force_login s).1 = Ok SUCCESS →
  ∃ (r1 r2 r3 r4 r5 r6 : response) (rest : list (result response))
    (icc : str),
    portal s = Ok r1 :: Ok r2 :: Ok r3 :: Ok r4 :: Ok r5 :: Ok r6 :: rest
    ∧ portal (login force_login s).2 = rest
    ∧ (length (sent (login force_login s).2) = length (sent s) + 6)%nat
    ∧ assoc (py "Set-Cookie") (headers r6) = Some icc
    ∧ findall_0 (match_lazy (py "ic-cookie=") 59) icc
      = Ok (cookies (login force_login s).2).
Proof.
  destruct (negb force_login && negb (bool_decide (cookies s = [])))
    eqn:Hc.
  - intros Hs.
    assert ((login force_login s).1 = Ok LOGIN_SKIPED) as Hk.
    { unfold login. run_M. by rewrite Hc. }
    by rewrite Hk in Hs.
  - rewrite login_unskipped by done.
    destruct (get_login_url s) as [[[]|e] s1] eqn:Hg; [|done].
    intros Hs.
    destruct (get_login_url_Ok s s1 Hg) as (r1 & r2 & p & Hp & Hp1 & Hn).
    destruct (login_exchange_trace s1 SUCCESS Hs)
      as (r3 & r4 & r5 & r6 & rest & icc & Hq & Hq1 & Hm & Hicc & Hic).
    exists r1, r2, r3, r4, r5, r6, rest, icc.
    rewrite Hp, <- Hp1, Hq. split; [done|]. split; [done|].
    split; [lia|done].
Qed.
End LoginSuccess.

Lemma login_success_exchange_witness :
  ∃ (r1 r2 r3 r4 r5 r6 : response) (rest : list (result response)),
    portal (alice uuid_b full_login)
    = Ok r1 :: Ok r2 :: Ok r3 :: Ok r4 :: Ok r5 :: Ok r6 :: rest.
Proof.
  destruct (@login_success_exchange ascii_runtime true
              (alice uuid_b full_login))
    as (r1 & r2 & r3 & r4 & r5 & r6 & rest & icc & Hp & _).
  - vm_compute. reflexivity.
  - by exists r1, r2, r3, r4, r5, r6, rest.
Defined.

(** ** The reservation query *)

Lemma select_resv_needs (items resv : list json) :
  select_resv items = Ok resv →
  Forall (λ item, record_needs_sign_in item = true) resv.
Proof.
  revert resv. induction items as [|item items IH]; intros resv.
  - by intros [= <-].
  - cbn [select_resv].
    destruct (py_get item (py "resvStatus")) as [st|] eqn:Hst; [|done].
    cbn [rbind]. destruct (py_int st) as [m|] eqn:Hm; [|done]. cbn [rbind].
    destruct (select_resv items) as [resv0|]; [|done]. cbn [rbind].
    specialize (IH resv0 eq_refl).
    destruct (needs_sign_in m) eqn:Hn; intros [= <-]; [|done].
    constructor; [|done].
    unfold record_needs_sign_in, status_of. rewrite Hst. cbn [rbind].
    by rewrite Hm.
Qed.

(** X10. Whatever the portal replies, a call of [get_ahead_reservation]
    sends one request, the reservation query with the stored cookie,
    consumes one reply, and leaves the stored cookie and the login url as
    they are. *)
Theorem get_ahead_reservation_effect (s : state) :
  sent (get_ahead_reservation s).2 = sent s ++ [Get_resvinfo (cookies s)]
  ∧ portal (get_ahead_reservation s).2 = tail (portal s)
  ∧ cookies (get_ahead_reservation s).2 = cookies s
  ∧ login_url (get_ahead_reservation s).2 = login_url s.
Proof.
  unfold get_ahead_reservation. run_M. cbn [portal add_log].
  destruct (portal s) as [|[res|e] rest]; [done| |done].
  repeat case_match; simplify_eq; done.
Qed.

(** X11. When [get_ahead_reservation] returns, it returns either
    [SUCCESS] with a record, and the record passes the test of the status
    bitmask, or no record with one of [NO_RESERVATION], [COOKIE_EXPIRED]
    and [FAILED]. *)
Theorem get_ahead_reservation_result (s : state) (r : option json)
    (rc : ReturnCode) :
  (get_ahead_reservation s).1 = Ok (r, rc) →
  (rc = SUCCESS ∧ ∃ item, r = Some item ∧ record_needs_sign_in item = true)
  ∨ (r = None
     ∧ (rc = NO_RESERVATION ∨ rc = COOKIE_EXPIRED ∨ rc = FAILED)).
Proof.
  unfold get_ahead_reservation. run_M. cbn [portal add_log].
  destruct (portal s) as [|[res|e] rest]; [done| |done].
  destruct (res_json res) as [body|]; [|done].
  destruct (py_get body (py "code")) as [code|]; [|done].
  assert (∀ m : M (option json * ReturnCode),
            (∀ s0, (m s0).1 = Ok (r, rc) →
                   r = None ∧ (rc = NO_RESERVATION ∨ rc = COOKIE_EXPIRED
                               ∨ rc = FAILED)) →
            ∀ s0, (m s0).1 = Ok (r, rc) →
              (rc = SUCCESS
               ∧ ∃ item, r = Some item ∧ record_needs_sign_in item = true)
              ∨ (r = None ∧ (rc = NO_RESERVATION ∨ rc = COOKIE_EXPIRED
                             ∨ rc = FAILED))) as Hright.
  { intros m Hm s0 Hs0. right. by eapply Hm. }
  destruct (py_num code) as [[|p|p]|].
  - destruct (py_get body (py "data")) as [data|]; [|done].
    destruct (py_iter data) as [items|]; [|done].
    destruct (select_resv items) as [resv|] eqn:Hsel; [|done].
    apply select_resv_needs in Hsel.
    destruct (py_get body (py "count")) as [count|]; [|done].
    destruct (py_int count) as [total|]; [|done].
    destruct resv as [|first others].
    + intros [= <- <-]. right. split; [done|]. by left.
    + apply Forall_cons in Hsel as [Hfirst _].
      destruct (bool_decide (others = [])); intros [= <- <-]; left;
        (split; [done|]; by exists first).
  - split_positive;
      try (destruct (py_get body (py "message")); [|done]);
      intros [= <- <-]; right; split; try done; auto.
  - destruct (py_get body (py "message")); [|done].
    intros [= <- <-]. right. split; [done|]. auto.
  - destruct (py_get body (py "message")); [|done].
    intros [= <- <-]. right. split; [done|]. auto.
Qed.

Lemma get_ahead_reservation_result_witness :
  (SUCCESS = SUCCESS
   ∧ ∃ item, Some (resv 2 (py "101-011")) = Some item
             ∧ record_needs_sign_in item = true)
  ∨ (Some (resv 2 (py "101-011")) = None
     ∧ (SUCCESS = NO_RESERVATION ∨ SUCCESS = COOKIE_EXPIRED
        ∨ SUCCESS = FAILED)).
Proof.
  apply (get_ahead_reservation_result
           (alice uuid_a [Ok (json_reply (JDict three_reservations))])).
  vm_compute. reflexivity.
Defined.

(** ** The sign-in *)

Lemma seat_signs_app (a b : list request) :
  seat_signs (a ++ b) = (seat_signs a + seat_signs b)%nat.
Proof. unfold seat_signs. by rewrite List.filter_app, length_app. Qed.

Section SignOutcomes.
Context `{Runtime}.

Lemma yields_sign_within (depth : nat) (devName : str) :
  yields (λ rc, rc = SUCCESS ∨ rc = ALREADY_SIGNED ∨ rc = NO_RESERVATION
                ∨ rc = FAILED)
    (sign_within depth devName).
Proof.
  revert devName. induction depth as [|depth IH]; intros devName.
  - intros s a. done.
  - cbn [sign_within].
    repeat first
      [ apply IH
      | apply yields_ret; tauto
      | apply yields_bind; intros ?
      | match goal with
        | |- yields _ (if ?b then _ else _) => destruct b
        end ].
Qed.

(** X12. When [sign] returns, it returns [SUCCESS], [ALREADY_SIGNED],
    [NO_RESERVATION] or [FAILED]; it never returns [COOKIE_EXPIRED], so
    the sign-in itself never asks the loop for a forced login. *)
Theorem sign_outcomes (devName : str) (s : state) (rc : ReturnCode) :
  (sign devName s).1 = Ok rc →
  rc = SUCCESS ∨ rc = ALREADY_SIGNED ∨ rc = NO_RESERVATION ∨ rc = FAILED.
Proof. apply (yields_sign_within recursion_limit devName s rc). Qed.

Lemma yields_sign_of_record (resv : option json) :
  yields (λ rc, rc = SUCCESS ∨ rc = ALREADY_SIGNED ∨ rc = NO_RESERVATION
                ∨ rc = FAILED)
    (infos <- lift (py_get (default JNull resv) (py "resvDevInfoList")) ;;
     info <- lift (py_index0 infos) ;;
     devName <- lift (py_get info (py "devName")) ;;
     devName <- lift (as_str devName) ;;
     sign devName).
Proof.
  repeat (apply yields_bind; intros ?). apply yields_sign_within.
Qed.

Lemma sign_for_ahead_reservation_unfold (s : state) :
  sign_for_ahead_reservation s
  = match get_ahead_reservation s with
    | (Ok (resv, errc), s1) =>
      (if bool_decide (errc ≠ SUCCESS) then ret errc
       else
         infos <-
           lift (py_get (default JNull resv) (py "resvDevInfoList")) ;;
         info <- lift (py_index0 infos) ;;
         devName <- lift (py_get info (py "devName")) ;;
         devName <- lift (as_str devName) ;;
         sign devName) s1
    | (Raise e, s1) => (Raise e, s1)
    end.
Proof.
  unfold sign_for_ahead_reservation. unfold bind at 1.
  by destruct (get_ahead_reservation s) as [[[r rc]|e] s1].
Qed.

(** X13. [sign_for_ahead_reservation] returns [COOKIE_EXPIRED] exactly
    when the reservation query did, and then the query was the only
    request sent. *)
Theorem sign_for_ahead_reservation_expired (s : state) :
  ((sign_for_ahead_reservation s).1 = Ok COOKIE_EXPIRED
   ↔ ∃ r, (get_ahead_reservation s).1 = Ok (r, COOKIE_EXPIRED))
  ∧ ((sign_for_ahead_reservation s).1 = Ok COOKIE_EXPIRED →
     (sign_for_ahead_reservation s).2 = (get_ahead_reservation s).2).
Proof.
  rewrite !sign_for_ahead_reservation_unfold.
  destruct (get_ahead_reservation s) as [[[r rc]|e] s1]; cbn [fst snd].
  - destruct (decide (rc = SUCCESS)) as [->|Hne].
    + rewrite bool_decide_eq_false_2 by (intros Hn; by apply Hn).
      split; [split|].
      * intros Hs. by destruct (yields_sign_of_record r s1 _ Hs) as [|[|[|]]].
      * by intros [r0 [= _]].
      * intros Hs. by destruct (yields_sign_of_record r s1 _ Hs) as [|[|[|]]].
    + rewrite bool_decide_eq_true_2 by done. cbn. split; [split|].
      * intros [= ->]. by exists r.
      * by intros [r0 [= _ ->]].
      * done.
  - split; [split|]; try done. by intros [r0 ?].
Qed.
End SignOutcomes.

Lemma sign_outcomes_witness :
  NO_RESERVATION = SUCCESS ∨ NO_RESERVATION = ALREADY_SIGNED
  ∨ NO_RESERVATION = NO_RESERVATION ∨ NO_RESERVATION = FAILED.
Proof.
  apply (@sign_outcomes ascii_runtime (py "101-011")
           (alice uuid_a one_redirect)).
  vm_compute. reflexivity.
Defined.

Ltac count_seat_signs :=
  cbn [fst snd sent set_portal add_log];
  rewrite ?seat_signs_app; cbn [seat_signs List.filter is_seat_sign length];
  lia.

Section SignEffects.
Context `{Runtime}.

Lemma sign_within_frame (depth : nat) :
  ∀ (devName : str) (s : state),
    cookies (sign_within depth devName s).2 = cookies s
    ∧ login_url (sign_within depth devName s).2 = login_url s
    ∧ json_dir (sign_within depth devName s).2 = json_dir s.
Proof.
  induction depth as [|depth IH]; intros devName s; [done|].
  cbn [sign_within]. unfold get_seat_resvDev_devSn. run_M.
  destruct (seat_lookup (json_dir s) devName (py "sign")) as [devSn|];
    [|done].
  destruct (portal s) as [|[res1|e] rest]; [done| |done].
  destruct (res_json res1) as [res1_data|]; [|done].
  destruct (py_get res1_data (py "data")) as [data|]; [|done].
  destruct (is_None data).
  - destruct (py_get res1_data (py "message")) as [message|]; [|done].
    destruct (as_text message) as [m|]; [|done].
    destruct (findall_0 _ m) as [label|]; [|done].
    by destruct (IH label
                   (add_log (Warn_message (name s) message)
                      (set_portal rest (Post_seat_login devSn (cookies s)) s)))
      as (-> & -> & ->).
  - repeat case_match; simplify_eq; done.
Qed.

(** X14. Whatever the portal replies and however often it redirects, a
    call of [sign] leaves the stored cookie, the login url and the seat
    tables as they are. *)
Theorem sign_frame (devName : str) (s : state) :
  cookies (sign devName s).2 = cookies s
  ∧ login_url (sign devName s).2 = login_url s
  ∧ json_dir (sign devName s).2 = json_dir s.
Proof. apply sign_within_frame. Qed.

Lemma sign_within_signs_once (depth : nat) :
  ∀ (devName : str) (s : state),
    (seat_signs (sent (sign_within depth devName s).2)
     ≤ seat_signs (sent s) + 1)%nat.
Proof.
  induction depth as [|depth IH]; intros devName s;
    [cbn [sign_within lift snd]; lia|].
  cbn [sign_within]. unfold get_seat_resvDev_devSn. run_M.
  destruct (seat_lookup (json_dir s) devName (py "sign")) as [devSn|];
    [|count_seat_signs].
  destruct (portal s) as [|[res1|e] rest]; try count_seat_signs.
  destruct (res_json res1) as [res1_data|]; [|count_seat_signs].
  destruct (py_get res1_data (py "data")) as [data|]; [|count_seat_signs].
  destruct (is_None data).
  - destruct (py_get res1_data (py "message")) as [message|];
      [|count_seat_signs].
    destruct (as_text message) as [m|]; [|count_seat_signs].
    destruct (findall_0 _ m) as [label|]; [|count_seat_signs].
    etrans; [apply IH|]. count_seat_signs.
  - repeat case_match; simplify_eq; count_seat_signs.
Qed.

(** X15. One call of [sign] sends at most one sign-in request, however
    many device-logins its redirections take. *)
Theorem sign_signs_once (devName : str) (s : state) :
  (seat_signs (sent (sign devName s).2) ≤ seat_signs (sent s) + 1)%nat.
Proof. apply sign_within_signs_once. Qed.
End SignEffects.

(** ** The order of the calls of the loop, and the cookies it keeps *)

Section WorkflowOrder.
Variable yy_login : bool → M ReturnCode.
Variable yy_sign_for_ahead_reservation : M ReturnCode.
Variable yy_pushplus : str → str + exn → M unit.

#[local] Abbreviation run_attempts :=
  (attempts yy_login yy_sign_for_ahead_reservation yy_pushplus).
#[local] Abbreviation run_sign_student :=
  (sign_student yy_login yy_sign_for_ahead_reservation yy_pushplus).

Lemma attempts_well_ordered n stu retc ext dirty s :
  well_ordered retc (run_calls (run_attempts n stu retc ext dirty s)) = true.
Proof.
  revert retc ext dirty s. induction n as [|n IH]; intros retc ext dirty s;
    [done|].
  cbn [attempts].
  assert (∀ ext dirty s1,
            match run_calls
                    (sign_step yy_sign_for_ahead_reservation
                       (run_attempts n stu) ext dirty s1) with
            | [] => true
            | Call_sign (Ok rc) :: rest' => well_ordered rc rest'
            | Call_sign (Raise _) :: rest' => bool_decide (rest' = [])
            | Call_login _ _ :: _ => false
            end = true) as Hstep.
  { intros ext1 dirty1 s1. unfold sign_step.
    destruct (yy_sign_for_ahead_reservation s1) as [[rc|e] s2]; [|done].
    cbn [run_calls after_call]. destruct (_ || _); [done|apply IH]. }
  destruct (yy_login _ s) as [[rc|e] s1].
  - cbn [run_calls after_call well_ordered].
    rewrite bool_decide_eq_true_2 by done. cbn [andb].
    destruct (bool_decide (rc = SUCCESS)); [apply Hstep|].
    destruct (bool_decide (rc = GET_LOGIN_URL_FAILED)); [|apply Hstep].
    destruct (bool_decide (stu_pushplus stu = [])); [done|].
    by destruct (yy_pushplus _ _ s1) as [[[]|e] s2].
  - cbn. by rewrite bool_decide_eq_true_2.
Qed.

(** X16. Whatever the methods do, the calls of the loop over one entry
    alternate, a login first and then a sign-in; the first login is never
    forced, and the second login is forced exactly when the first sign-in
    returned [COOKIE_EXPIRED]. *)
Theorem loop_call_order (stu : student) (external_cookies : gmap str str)
    (cookie_dirty : bool) (w : state) :
  let calls :=
    run_calls (run_sign_student stu external_cookies cookie_dirty w) in
  well_ordered SUCCESS calls = true
  ∧ (∀ c rest, calls = c :: rest → ∃ r, c = Call_login false r)
  ∧ (∀ c1 c2 c3 rest, calls = c1 :: c2 :: c3 :: rest →
       ∃ rc r, c2 = Call_sign (Ok rc)
               ∧ c3 = Call_login (bool_decide (rc = COOKIE_EXPIRED)) r).
Proof.
  intros calls.
  assert (well_ordered SUCCESS calls = true) as Hw.
  { subst calls. unfold sign_student.
    set (cookie := match stu_cookie stu with Some c => c | None => _ end).
    pose proof (attempts_well_ordered 2 stu SUCCESS external_cookies
                  cookie_dirty (ZWYT_new stu cookie w)) as Hw.
    destruct (run_retc _) as [|e]; [done|].
    destruct (bool_decide (stu_pushplus stu = [])); [done|].
    by destruct (yy_pushplus _ _ _) as [[|] ?]. }
  split; [done|]. clear -Hw. split.
  - intros c rest ->. destruct c as [f r|r]; [|done]. simpl in Hw.
    apply andb_prop in Hw as [->%bool_decide_eq_true _]. by exists r.
  - intros c1 c2 c3 rest ->. destruct c1 as [f1 r1|r1]; [|done].
    simpl in Hw. apply andb_prop in Hw as [_ Hw].
    destruct c2 as [f2 r2|[rc|e]]; [done| |done].
    destruct c3 as [f3 r3|r3]; [|done]. simpl in Hw.
    apply andb_prop in Hw as [->%bool_decide_eq_true _]. by exists rc, r3.
Qed.

Lemma attempts_cookies n stu retc ext dirty s :
  let r := run_attempts n stu retc ext dirty s in
  run_dirty r = dirty || existsb login_succeeded (run_calls r)
  ∧ (existsb login_succeeded (run_calls r) = false → run_cookies r = ext)
  ∧ (∀ k, k ≠ stu_name stu → run_cookies r !! k = ext !! k).
Proof.
  revert retc ext dirty s. induction n as [|n IH]; intros retc ext dirty s.
  - cbn. by rewrite orb_false_r.
  - cbn [attempts].
    assert (∀ ext1 dirty1 s1,
              let r := sign_step yy_sign_for_ahead_reservation
                         (run_attempts n stu) ext1 dirty1 s1 in
              run_dirty r = dirty1 || existsb login_succeeded (run_calls r)
              ∧ (existsb login_succeeded (run_calls r) = false →
                 run_cookies r = ext1)
              ∧ (∀ k, k ≠ stu_name stu → run_cookies r !! k = ext1 !! k))
      as Hstep.
    { intros ext1 dirty1 s1. unfold sign_step.
      destruct (yy_sign_for_ahead_reservation s1) as [[rc|e] s2].
      - destruct (_ || _).
        + cbn. by rewrite orb_false_r.
        + apply (IH rc ext1 dirty1 s2).
      - cbn. by rewrite orb_false_r. }
    destruct (yy_login _ s) as [[rc|e] s1].
    + destruct (bool_decide (rc = SUCCESS)) eqn:Hs.
      * apply bool_decide_eq_true in Hs as ->.
        destruct (Hstep (<[stu_name stu := cookies s1]> ext) true s1)
          as (Hd & _ & Hk).
        cbn [run_dirty run_cookies run_calls after_call existsb
               login_succeeded orb].
        rewrite Hd. cbn [orb]. split; [by rewrite orb_true_r|].
        split; [done|]. intros k Hne. rewrite Hk by done.
        by rewrite lookup_insert_ne.
      * assert (login_succeeded
                  (Call_login (bool_decide (retc = COOKIE_EXPIRED)) (Ok rc))
                = false) as Hno.
        { destruct rc; try done; by rewrite bool_decide_eq_true_2 in Hs. }
        destruct (bool_decide (rc = GET_LOGIN_URL_FAILED)).
        -- assert (∀ retc0 s0,
                     let r := after_call
                                (Call_login
                                   (bool_decide (retc = COOKIE_EXPIRED))
                                   (Ok rc))
                                (leave retc0 ext dirty s0) in
                     run_dirty r
                     = dirty || existsb login_succeeded (run_calls r)
                     ∧ (existsb login_succeeded (run_calls r) = false →
                        run_cookies r = ext)
                     ∧ (∀ k, k ≠ stu_name stu →
                          run_cookies r !! k = ext !! k)) as Hleaf.
           { intros retc0 s0.
             cbn [run_dirty run_cookies run_calls after_call leave existsb].
             rewrite Hno. cbn [orb]. by rewrite orb_false_r. }
           destruct (bool_decide (stu_pushplus stu = [])); [apply Hleaf|].
           destruct (yy_pushplus _ _ s1) as [[[]|e] s2]; apply Hleaf.
        -- destruct (Hstep ext dirty s1) as (Hd & He & Hk).
           cbn [run_dirty run_cookies run_calls after_call existsb].
           by rewrite Hno.
    + cbn. by rewrite orb_false_r.
Qed.

(** X17. The loop over one entry changes [external_cookies] only under
    the name of the entry, and only when a login returned [SUCCESS];
    [cookie_dirty] is true afterwards exactly when it was true before or a
    login returned [SUCCESS]. *)
Theorem loop_cookies (stu : student) (external_cookies : gmap str str)
    (cookie_dirty : bool) (w : state) :
  let r := run_sign_student stu external_cookies cookie_dirty w in
  run_dirty r = cookie_dirty || existsb login_succeeded (run_calls r)
  ∧ (existsb login_succeeded (run_calls r) = false →
     run_cookies r = external_cookies)
  ∧ (∀ k, k ≠ stu_name stu →
       run_cookies r !! k = external_cookies !! k).
Proof.
  unfold sign_student.
  set (cookie := match stu_cookie stu with Some c => c | None => _ end).
  pose proof (attempts_cookies 2 stu SUCCESS external_cookies cookie_dirty
                (ZWYT_new stu cookie w)) as Hr.
  destruct (run_retc _) as [|e]; [done|].
  destruct (bool_decide (stu_pushplus stu = [])); [done|].
  by destruct (yy_pushplus _ _ _) as [[|] ?].
Qed.
End WorkflowOrder.

(** ** The command line *)

Lemma split_colon_1_pair (n c : str) :
  forallb (λ x, negb (x =? 58)) n = true →
  split_colon_1 (n ++ 58 :: c) = [n; c].
Proof.
  intros Hn. unfold split_colon_1.
  rewrite (takewhile_app_stop _ n 58 c) by done.
  by rewrite (dropwhile_app_all _ n (58 :: c)) by done.
Qed.

Lemma split_colon_1_plain (n : str) :
  forallb (λ x, negb (x =? 58)) n = true → split_colon_1 n = [n].
Proof.
  intros Hn. unfold split_colon_1.
  by rewrite takewhile_all, dropwhile_all by done.
Qed.

Lemma parse_pairs_app (a b : list str) (t : gmap str (option str)) :
  parse_pairs (a ++ b) t = parse_pairs b (parse_pairs a t).
Proof.
  revert t. induction a as [|arg a IH]; intros t; [done|].
  cbn [app parse_pairs]. destruct (split_colon_1 arg) as [|n [|c [|x l]]];
    apply IH.
Qed.

(** X18. The last argument that names an entry decides: after any other
    arguments, [name:cookie] leaves the name with that cookie, which is
    all that follows the first colon and may hold colons itself, and the
    bare [name] leaves it without a cookie, also when an earlier argument
    gave one. *)
Theorem command_line_last_wins (args : list str) (n c : str)
    (targets : gmap str (option str)) :
  forallb (λ x, negb (x =? 58)) n = true →
  parse_pairs (args ++ [n ++ 58 :: c]) targets !! n = Some (Some c)
  ∧ parse_pairs (args ++ [n]) targets !! n = Some None.
Proof.
  intros Hn. rewrite !parse_pairs_app. cbn [parse_pairs].
  rewrite split_colon_1_pair, split_colon_1_plain by done.
  by rewrite !lookup_insert_eq.
Qed.

Lemma command_line_last_wins_witness :
  parse_pairs ([py "alice:" ++ uuid_a] ++ [py "alice"]) ∅ !! py "alice"
  = Some None.
Proof.
  refine (proj2 (command_line_last_wins [py "alice:" ++ uuid_a] (py "alice")
                   [] ∅ _)).
  vm_compute. reflexivity.
Defined.

(** X19. The entries that the loop of [main] visits are the entries of
    [infos] whose names the command line gives, in the order of [infos]
    and each at most as often as [infos] has it; names that [infos] does
    not have are passed over; and an entry whose name was given a cookie
    carries that cookie. *)
Theorem selected_targets (infos : list student)
    (targets : gmap str (option str)) :
  map stu_name (select_targets infos targets)
  = List.filter (λ k, bool_decide (is_Some (targets !! k)))
      (map stu_name infos)
  ∧ Forall (λ stu, ∀ c, targets !! stu_name stu = Some (Some c) →
                        stu_cookie stu = Some c)
      (select_targets infos targets).
Proof.
  induction infos as [|stu infos [IH1 IH2]]; [done|].
  cbn [select_targets map List.filter].
  destruct (targets !! stu_name stu) as [[c|]|] eqn:Ht.
  - rewrite bool_decide_eq_true_2 by (by eexists). cbn [map]. split.
    + by rewrite <- IH1.
    + constructor; [|done]. cbn. intros c'. rewrite Ht. by intros [= ->].
  - rewrite bool_decide_eq_true_2 by (by eexists). cbn [map]. split.
    + by rewrite <- IH1.
    + constructor; [|done]. intros c'. by rewrite Ht.
  - rewrite bool_decide_eq_false_2 by (by intros [? ?]). done.
Qed.

(** ** Booking *)

Lemma reserve_days_Ok (c n : date) (periods : list (list str)) :
  Forall (λ p, p ≠ []) periods →
  reserve_days c n periods
  = Ok (map (λ p, (day_text c ++ py " " ++ default [] (head p),
                   day_text c ++ py " " ++ default [] (last p))) periods,
        map (λ p, (day_text n ++ py " " ++ default [] (head p),
                   day_text n ++ py " " ++ default [] (last p))) periods).
Proof.
  induction 1 as [|p periods Hp _ IH]; [done|].
  cbn [reserve_days map]. rewrite IH. unfold index_last.
  destruct p as [|x p]; [done|]. cbn [index0 rbind head default].
  destruct (last (x :: p)) as [y|] eqn:Hl; [done|].
  by apply last_None in Hl.
Qed.

Lemma reserve_days_empty (c n : date) (periods : list (list str)) :
  Exists (λ p, p = []) periods → reserve_days c n periods = Raise IndexError.
Proof.
  induction periods as [|p periods IH]; intros He.
  - by apply Exists_nil in He.
  - cbn [reserve_days]. destruct p as [|x p]; [done|].
    apply Exists_cons in He as [?|He]; [done|]. rewrite (IH He).
    cbn [index0 rbind]. unfold index_last.
    by destruct (last (x :: p)).
Qed.

(** X20. With every period holding a time, [get_reserve_date] returns two
    windows per period, those of the next day first and those of the
    current day after them, each in the order of the periods and running
    from the first to the last time of its period; with a period that
    holds none, it raises [IndexError]. *)
Theorem get_reserve_date_windows (current_day next_day : date)
    (periods : list (list str)) :
  (Forall (λ p, p ≠ []) periods →
   get_reserve_date current_day next_day periods
   = Ok (map (λ p, (day_text next_day ++ py " " ++ default [] (head p),
                    day_text next_day ++ py " " ++ default [] (last p)))
           periods
         ++ map (λ p, (day_text current_day ++ py " "
                         ++ default [] (head p),
                       day_text current_day ++ py " "
                         ++ default [] (last p)))
              periods))
  ∧ (Exists (λ p, p = []) periods →
     get_reserve_date current_day next_day periods = Raise IndexError).
Proof.
  unfold get_reserve_date. split.
  - intros Hp. by rewrite reserve_days_Ok.
  - intros He. by rewrite reserve_days_empty.
Qed.

Lemma get_reserve_date_windows_witness :
  get_reserve_date {| year := 2025; month := 2; day := 17 |}
    {| year := 2025; month := 2; day := 18 |}
    [[py "8:30:00"; py "12:00:00"]; [py "14:00:00"]]
  = Ok [(py "2025-2-18 8:30:00", py "2025-2-18 12:00:00");
        (py "2025-2-18 14:00:00", py "2025-2-18 14:00:00");
        (py "2025-2-17 8:30:00", py "2025-2-17 12:00:00");
        (py "2025-2-17 14:00:00", py "2025-2-17 14:00:00")].
Proof.
  etrans.
  - apply (proj1 (get_reserve_date_windows _ _ _)). by repeat constructor.
  - vm_compute. reflexivity.
Defined.

Lemma reserve_windows_good (name devName : str) (appAccNo resvDev : json)
    (ic_cookie : str) (dates : list (str * str)) :
  ∀ (rs : list response) (rest : list (result response)) (b : booking),
    replies b = (Ok <$> rs) ++ rest →
    length rs = length dates →
    Forall has_text_message rs →
    ∃ b',
      reserve_windows name devName appAccNo resvDev ic_cookie dates b
      = (Ok tt, b')
      ∧ replies b' = rest
      ∧ requested b'
        = requested b
          ++ map (λ d, Post_reserve appAccNo d.1 d.2 resvDev ic_cookie) dates
      ∧ length (reported b') = (length (reported b) + length dates)%nat.
Proof.
  induction dates as [|d dates IH]; intros rs rest b Hb Hlen Hrs.
  - destruct rs; [|done]. exists b. simpl in *.
    rewrite app_nil_r. split_and!; (done || lia).
  - destruct rs as [|r rs]; [done|].
    apply Forall_cons in Hrs as [(body & m & Hj & Hm) Hrs].
    injection Hlen as Hlen. cbn [reserve_windows]. unfold ask.
    rewrite Hb. cbn [fmap list_fmap app rbind]. unfold res_json.
    rewrite Hj. cbn [rbind]. rewrite Hm. cbn [as_text].
    assert (∀ b0 : booking,
              replies b0 = (Ok <$> rs) ++ rest →
              requested b0
              = requested b
                ++ [Post_reserve appAccNo d.1 d.2 resvDev ic_cookie] →
              length (reported b0) = S (length (reported b)) →
              ∃ b',
                reserve_windows name devName appAccNo resvDev ic_cookie
                  dates b0 = (Ok tt, b')
                ∧ replies b' = rest
                ∧ requested b'
                  = requested b
                    ++ map (λ d, Post_reserve appAccNo d.1 d.2 resvDev
                                   ic_cookie) (d :: dates)
                ∧ length (reported b')
                  = (length (reported b) + length (d :: dates))%nat)
      as Hnext.
    { intros b0 Hb0 Hq Hr.
      destruct (IH rs rest b0 Hb0 Hlen Hrs) as (b' & He & Hr' & Hq' & Hl').
      exists b'. split; [done|]. split; [done|]. split.
      - rewrite Hq', Hq. cbn [map]. by rewrite <- app_assoc.
      - rewrite Hl', Hr. simpl. lia. }
    destruct (json_eq_str (JStr m) (py "新增成功")).
    + apply Hnext; cbn; rewrite ?length_app; (done || (simpl; lia)).
    + destruct (occurs (py "当前时段有预约") m);
        apply Hnext; cbn; rewrite ?length_app; (done || (simpl; lia)).
Qed.

Section BookingProofs.
Context `{Runtime}.

(** X21. [reserve] asks for the account once and then posts one request
    per window, the windows of the next day first, whatever the messages
    of the replies say: a window that is refused or already taken does not
    stop the windows after it. This holds when the seat is found, the
    account reply carries [data.accNo], every period holds a time, and
    every reply to a request carries a message that is a text. *)
Theorem reserve_posts_every_window (current_day next_day : date)
    (periods : list (list str)) (devName : str) (s : state) (b : booking)
    (resvDev appAccNo : json) (account : response) (rs : list response)
    (rest : list (result response)) (dates : list (str * str)) :
  seat_lookup (json_dir s) devName (py "reserve") = Ok resvDev →
  replies b = Ok account :: (Ok <$> rs) ++ rest →
  (let* body := res_json account in
   let* data := py_get body (py "data") in
   py_get data (py "accNo")) = Ok appAccNo →
  get_reserve_date current_day next_day periods = Ok dates →
  length rs = length dates →
  Forall has_text_message rs →
  ∃ b',
    reserve current_day next_day periods devName s b = (Ok tt, b')
    ∧ replies b' = rest
    ∧ requested b'
      = requested b ++ [Get_userinfo (cookies s)]
        ++ map (λ d, Post_reserve appAccNo d.1 d.2 resvDev (cookies s)) dates
    ∧ length (reported b') = (length (reported b) + length dates)%nat.
Proof.
  intros Hseat Hb Hacc Hdates Hlen Hrs. unfold reserve.
  rewrite Hseat. unfold get_person_appAccNo, ask. rewrite Hb.
  cbn [rbind]. rewrite Hacc, Hdates.
  destruct (reserve_windows_good (name s) devName appAccNo resvDev
              (cookies s) dates rs rest
              {| replies := (Ok <$> rs) ++ rest;
                 requested := requested b ++ [Get_userinfo (cookies s)];
                 reported := reported b |} eq_refl Hlen Hrs)
    as (b' & He & Hr & Hq & Hl).
  exists b'. split; [done|]. split; [done|]. split; [|done].
  rewrite Hq. cbn. by rewrite <- app_assoc.
Qed.
End BookingProofs.

Lemma reserve_posts_every_window_witness :
  ∃ b',
    @reserve ascii_runtime {| year := 2025; month := 2; day := 17 |}
      {| year := 2025; month := 2; day := 18 |}
      [[py "8:30:00"; py "12:00:00"]; [py "14:00:00"]] (py "101-011")
      (alice uuid_a [])
      {| replies := booking_replies; requested := []; reported := [] |}
    = (Ok tt, b')
    ∧ replies b' = [].
Proof.
  destruct (@reserve_posts_every_window ascii_runtime
              {| year := 2025; month := 2; day := 17 |}
              {| year := 2025; month := 2; day := 18 |}
              [[py "8:30:00"; py "12:00:00"]; [py "14:00:00"]]
              (py "101-011") (alice uuid_a [])
              {| replies := booking_replies; requested := [];
                 reported := [] |}
              (JInt 111) (JInt 7)
              (json_reply (JDict [(py "data", JDict [(py "accNo", JInt 7)])]))
              [message_reply (py "新增成功"); message_reply (py "预约失败");
               message_reply (py "当前时段有预约, 请重新选择");
               message_reply (py "新增成功")]
              []
              [(py "2025-2-18 8:30:00", py "2025-2-18 12:00:00");
               (py "2025-2-18 14:00:00", py "2025-2-18 14:00:00");
               (py "2025-2-17 8:30:00", py "2025-2-17 12:00:00");
               (py "2025-2-17 14:00:00", py "2025-2-17 14:00:00")])
    as (b' & He & Hr & _); try (vm_compute; reflexivity).
  - repeat constructor; eexists _, _; split; vm_compute; reflexivity.
  - exists b'. by split.
Defined.

(** X22. A reply whose message is no text (the key is missing, say) and
    which is therefore not the message of success makes the loop of
    [reserve] raise [TypeError] from the search of the message: the window
    was requested, and the windows after it are not. *)
Theorem reserve_windows_abort (name devName : str) (appAccNo resvDev : json)
    (ic_cookie : str) (d : str * str) (later : list (str * str))
    (bad : response) (rest : list (result response)) (b : booking) :
  replies b = Ok bad :: rest →
  has_no_text_message bad →
  (reserve_windows name devName appAccNo resvDev ic_cookie (d :: later) b).1
  = Raise TypeError
  ∧ requested
      (reserve_windows name devName appAccNo resvDev ic_cookie (d :: later)
         b).2
    = requested b ++ [Post_reserve appAccNo d.1 d.2 resvDev ic_cookie]
  ∧ replies
      (reserve_windows name devName appAccNo resvDev ic_cookie (d :: later)
         b).2
    = rest.
Proof.
  intros Hb (body & v & Hj & Hm & Hv). cbn [reserve_windows]. unfold ask.
  rewrite Hb. cbn [rbind]. unfold res_json. rewrite Hj. cbn [rbind].
  rewrite Hm, Hv.
  assert (json_eq_str v (py "新增成功") = false) as ->; [|done].
  by destruct v.
Qed.

Lemma reserve_windows_abort_witness :
  (reserve_windows (py "alice") (py "101-011") (JInt 7) (JInt 111) uuid_a
     [(py "a", py "b"); (py "c", py "d")]
     {| replies := [Ok (json_reply (JDict []))]; requested := [];
        reported := [] |}).1
  = Raise TypeError.
Proof.
  refine (proj1 (reserve_windows_abort (py "alice") (py "101-011") (JInt 7)
                   (JInt 111) uuid_a (py "a", py "b") [(py "c", py "d")]
                   (json_reply (JDict [])) []
                   {| replies := [Ok (json_reply (JDict []))];
                      requested := []; reported := [] |} eq_refl _)).
  eexists _, _. split_and!; reflexivity.
Defined.

(** ** [main] over all entries *)

Section MainProofs.
Variable yy_login : bool → M ReturnCode.
Variable yy_sign_for_ahead_reservation : M ReturnCode.
Variable yy_pushplus : str → str + exn → M unit.

#[local] Abbreviation do_visit :=
  (visit yy_login yy_sign_for_ahead_reservation yy_pushplus).
#[local] Abbreviation do_visit_all :=
  (visit_all yy_login yy_sign_for_ahead_reservation yy_pushplus).

Lemma visit_dirty stu ext dirty w r w' :
  do_visit stu ext dirty w = (Ok r, w') →
  run_dirty r = dirty || existsb login_succeeded (run_calls r).
Proof.
  unfold visit.
  set (cookie := match stu_cookie stu with Some c => c | None => _ end).
  destruct (attempts_cookies yy_login yy_sign_for_ahead_reservation
              yy_pushplus 2 stu SUCCESS ext dirty (ZWYT_new stu cookie w))
    as [Hd _].
  destruct (run_retc _) as [|e]; [by intros [= <- _]|].
  destruct (bool_decide (stu_pushplus stu = [])); [by intros [= <- _]|].
  destruct (yy_pushplus _ _ _) as [[|] ?]; [by intros [= <- _]|done].
Qed.

Lemma visit_all_dirty students :
  ∀ ext dirty w runs ext' dirty' w',
    do_visit_all students ext dirty w = (Ok (runs, ext', dirty'), w') →
    dirty'
    = dirty || existsb (λ r, existsb login_succeeded (run_calls r)) runs.
Proof.
  induction students as [|stu students IH];
    intros ext dirty w runs ext' dirty' w'.
  - cbn. intros [= <- _ <- _]. by rewrite orb_false_r.
  - cbn [visit_all].
    destruct (do_visit stu ext dirty w) as [[r|e] w1] eqn:Hv; [|done].
    destruct (do_visit_all students (run_cookies r) (run_dirty r) w1)
      as [[[[rs ext1] dirty1]|e] w2] eqn:Hrest; [|done].
    intros [= <- _ <- _]. rewrite (IH _ _ _ _ _ _ _ Hrest).
    rewrite (visit_dirty _ _ _ _ _ _ Hv). cbn [existsb].
    by rewrite orb_assoc.
Qed.

(** X23. When no entry has a [pushplus] token, the loop of [main] visits
    every entry, whatever the methods do: an exception while one entry is
    handled is swallowed and the next entry is visited. *)
Theorem batch_goes_on (students : list student)
    (external_cookies : gmap str str) (cookie_dirty : bool) (w : state) :
  Forall (λ stu, stu_pushplus stu = []) students →
  ∃ runs ext dirty w',
    do_visit_all students external_cookies cookie_dirty w
    = (Ok (runs, ext, dirty), w')
    ∧ length runs = length students.
Proof.
  intros Hs. revert external_cookies cookie_dirty w.
  induction Hs as [|stu students Hstu _ IH]; intros ext dirty w.
  - by eexists [], _, _, _.
  - cbn [visit_all].
    assert (∃ r w1, do_visit stu ext dirty w = (Ok r, w1)) as (r & w1 & ->).
    { unfold visit. rewrite Hstu. rewrite bool_decide_eq_true_2 by done.
      destruct (run_retc _); by eexists _, _. }
    destruct (IH (run_cookies r) (run_dirty r) w1)
      as (runs & ext' & dirty' & w' & -> & Hlen).
    eexists (r :: runs), _, _, _. split; [done|]. simpl. by rewrite Hlen.
Qed.
End MainProofs.

Section MainCacheProofs.
Context `{Runtime}.
Variable yy_login : bool → M ReturnCode.
Variable yy_sign_for_ahead_reservation : M ReturnCode.
Variable yy_pushplus : str → str + exn → M unit.

End MainCacheProofs.

Lemma batch_goes_on_witness :
  ∃ runs ext dirty w',
    visit_all (λ _, always_raises) always_raises (λ _ _, always_raises)
      [stu_alice; stu_alice] ∅ false (alice [] [])
    = (Ok (runs, ext, dirty), w')
    ∧ length runs = length [stu_alice; stu_alice].
Proof. apply batch_goes_on. by repeat constructor. Defined.


(** The run rewrites the cache with the cookie of the forced login. *)
Example cache_run_rewrites :
  match cache_run.1 with
  | Ok (runs, fs') =>
    (@load_cookie_cache ascii_runtime fs' cache_path).2
    = Ok {[ py "alice" := uuid_a ]}
  | Raise _ => False
  end.
Proof. vm_compute. reflexivity. Qed.

(** ** The seat named in a device-login message *)

Lemma search_skip (m : str → option str) (pre rest : str) :
  (∀ a b t, pre = a ++ b → m (b ++ t) = None ∨ b = []) →
  search m (pre ++ rest) = search m rest.
Proof.
  induction pre as [|c pre IH]; intros Hm; [done|].
  cbn [app search].
  destruct (Hm [] (c :: pre) rest eq_refl) as [Hn|?]; [|done].
  cbn [app] in Hn. rewrite Hn.
  apply IH. intros a b t ->. apply (Hm (c :: a) b t). done.
Qed.

(** X25. The seat that [sign] takes from a message is all that stands
    between the first hyphen of the message and the last [处] of that
    line, so a seat name with hyphens in it is taken whole. *)
Theorem label_of_message (pre label post : str) :
  forallb (λ c, negb (c =? 45)) pre = true →
  forallb (λ c, negb (c =? 10)) label = true →
  forallb (λ c, negb (c =? 10) && negb (c =? 22788)) post = true →
  findall_0 (match_greedy (py "-") 22788)
    (pre ++ 45 :: label ++ 22788 :: post)
  = Ok label.
Proof.
  intros Hpre Hlabel Hpost. unfold findall_0.
  rewrite search_skip.
  - cbn [search]. unfold match_greedy.
    change (py "-") with [45]. cbn [strip_prefix].
    change (45 =? 45) with true. cbv iota.
    assert (dot_run (label ++ 22788 :: post) = label ++ 22788 :: post)
      as ->.
    { unfold dot_run. apply takewhile_all. rewrite forallb_app. cbn.
      rewrite Hlabel. cbn. eapply forallb_weaken; [|exact Hpost].
      intros c Hc. cbn in Hc. by apply andb_prop in Hc as [? _]. }
    assert (existsb (N.eqb 22788) (label ++ 22788 :: post) = true) as ->.
    { rewrite existsb_app. cbn. by rewrite orb_true_r. }
    rewrite rev_app_distr. cbn [rev]. rewrite <- app_assoc. cbn [app].
    rewrite (dropwhile_app_all _ (rev post)).
    + cbn. by rewrite rev_involutive.
    + rewrite forallb_forall. intros c Hin%in_rev.
      rewrite forallb_forall in Hpost. specialize (Hpost c Hin). cbn in Hpost.
      by apply andb_prop in Hpost as [_ ?].
  - intros a b t ->. destruct b as [|c b]; [by right|left].
    unfold match_greedy. change (py "-") with [45]. cbn [app strip_prefix].
    rewrite forallb_app in Hpre. apply andb_prop in Hpre as [_ Hb].
    cbn in Hb. apply andb_prop in Hb as [Hc _].
    rewrite N.eqb_sym. by destruct (c =? 45).
Qed.

Lemma label_of_message_witness :
  findall_0 (match_greedy (py "-") 22788)
    (py "请到预约座位" ++ 45 :: py "101-012" ++ 22788 :: py "签到")
  = Ok (py "101-012").
Proof. apply label_of_message; vm_compute; reflexivity. Defined.

Section SignRequests.
Context `{Runtime}.

Lemma sign_within_requests (depth : nat) :
  ∀ (devName : str) (s : state) (rc : ReturnCode),
    (sign_within depth devName s).1 = Ok rc →
    seat_signs (sent (sign_within depth devName s).2)
    = (seat_signs (sent s)
       + if bool_decide (rc = NO_RESERVATION) then 0 else 1)%nat.
Proof.
  induction depth as [|depth IH]; intros devName s rc; [done|].
  cbn [sign_within]. unfold get_seat_resvDev_devSn. run_M.
  destruct (seat_lookup (json_dir s) devName (py "sign")) as [devSn|];
    [|done].
  destruct (portal s) as [|[res1|e] rest]; [done| |done].
  destruct (res_json res1) as [res1_data|]; [|done].
  destruct (py_get res1_data (py "data")) as [data|]; [|done].
  destruct (is_None data).
  - destruct (py_get res1_data (py "message")) as [message|]; [|done].
    destruct (as_text message) as [m|]; [|done].
    destruct (findall_0 _ m) as [label|]; [|done].
    intros Hrc. rewrite (IH _ _ _ Hrc). count_seat_signs.
  - destruct (py_get data (py "reserveInfo")) as [info|]; [|done].
    destruct (is_None info);
      [intros [= <-]; rewrite bool_decide_eq_true_2 by done;
       count_seat_signs|].
    destruct (py_get info (py "resvId")) as [resvId|]; [|done].
    cbn [portal set_portal].
    destruct rest as [|[res2|e] rest]; [done| |done].
    destruct (res_json res2) as [body|]; [|done].
    destruct (py_get body (py "message")) as [message|]; [|done].
    destruct (json_eq_str message (py "操作成功"));
      [intros [= <-]; rewrite bool_decide_eq_false_2 by done;
       count_seat_signs|].
    destruct (json_eq_str message _); intros [= <-];
      rewrite bool_decide_eq_false_2 by done; count_seat_signs.
Qed.

(** X26. A call of [sign] that returns [NO_RESERVATION] has sent no
    sign-in request; one that returns [SUCCESS], [ALREADY_SIGNED] or
    [FAILED] has sent exactly one. *)
Theorem sign_requests (devName : str) (s : state) (rc : ReturnCode) :
  (sign devName s).1 = Ok rc →
  seat_signs (sent (sign devName s).2)
  = (seat_signs (sent s)
     + if bool_decide (rc = NO_RESERVATION) then 0 else 1)%nat.
Proof. apply sign_within_requests. Qed.
End SignRequests.

Lemma sign_requests_witness :
  seat_signs
    (sent (@sign ascii_runtime (py "101-011") (alice uuid_a one_redirect)).2)
  = (seat_signs (sent (alice uuid_a one_redirect))
     + if bool_decide (NO_RESERVATION = NO_RESERVATION) then 0 else 1)%nat.
Proof.
  apply (@sign_requests ascii_runtime (py "101-011")
           (alice uuid_a one_redirect) NO_RESERVATION).
  vm_compute. reflexivity.
Defined.
